(** * Student admission form: the POST /submit pipeline of app.js

    A shallow embedding of the Express handler of [app.js] (upload filter,
    validation, persistence, notification) and of the parts of the
    JavaScript runtime it relies on: strings as sequences of UTF-16 code
    units, the conversions [ToBoolean]/[ToString] (which throws for an
    object without primitive value), strict equality, the [Date]
    constructor and the backtracking matcher behind [RegExp.test]. *)

From Stdlib Require Import ZArith NArith QArith List String Ascii Bool Lia.
From Stdlib Require Import DecimalString DecimalZ.
Import ListNotations.

Set Implicit Arguments.
Local Close Scope Q_scope.

(* ================================================================== *)
(** * JavaScript values reaching the handler *)
(* ================================================================== *)

Module Js.

(** A JavaScript string is a sequence of UTF-16 code units. *)
Definition code_unit := N.
Definition jsstring := list code_unit.

(** A string literal of the source (ASCII only in app.js). *)
Definition lit (s : string) : jsstring :=
  map N_of_ascii (list_ascii_of_string s).

(** A character of the source. *)
Definition chr (a : ascii) : code_unit := N_of_ascii a.

Definition jsstring_eqb (a b : jsstring) : bool :=
  if list_eq_dec N.eq_dec a b then true else false.

(** What a [throw] carries. *)
Definition Error := string.

(** How an evaluation ends: with a value, or by throwing. *)
Inductive Completion (A : Type) : Type :=
| Normal (a : A)
| Throw (e : Error).
Arguments Normal {A} a.
Arguments Throw {A} e.

Definition bindC {A B} (c : Completion A) (f : A -> Completion B)
  : Completion B :=
  match c with
  | Normal a => f a
  | Throw e => Throw e
  end.

(** The error of a conversion that finds no primitive. *)
Definition TypeError : Error :=
  "TypeError: Cannot convert object to primitive value"%string.

(** Values of the fields of [req.body].  A form field is a string or missing
    ([undefined]); a JSON body can also carry [null], booleans, numbers,
    arrays and objects, and a bracketed field name makes multer build an
    array or an object.

    A number is its value, finite or not (an overflowing literal reads as
    Infinity), together with the text [Number::toString] prints for it: the
    text is carried along, not computed.

    An object or an array is what converting it to a primitive gives.  That
    is a text for an array (its elements joined by commas) and for a plain
    object ("[object Object]"), the same whichever hint is given; it is a
    TypeError for an object with no callable [toString] or [valueOf] to
    produce one, such as the JSON object {"toString": 1}, an array holding
    one, or the prototype-less objects multer builds. *)
Inductive value : Type :=
| Undefined
| Null
| Bool (b : bool)
| Num (x : option Q) (text : jsstring)
| Str (s : jsstring)
| Obj (primitive : option jsstring).

(** [!v] is [negb (ToBoolean v)]. *)
Definition ToBoolean (v : value) : bool :=
  match v with
  | Undefined => false
  | Null => false
  | Bool b => b
  | Num (Some x) _ => negb (Qnum x =? 0)%Z
  | Num None _ => true
  | Str s => match s with [] => false | _ :: _ => true end
  | Obj _ => true
  end.

(** [String(v)], as used by template literals and by [RegExp.test]. *)
Definition ToString (v : value) : Completion jsstring :=
  match v with
  | Undefined => Normal (lit "undefined")
  | Null => Normal (lit "null")
  | Bool true => Normal (lit "true")
  | Bool false => Normal (lit "false")
  | Num _ text => Normal text
  | Str s => Normal s
  | Obj (Some s) => Normal s
  | Obj None => Throw TypeError
  end.

(** A template literal: its parts, the literal ones and the converted
    substitutions, are evaluated from left to right and joined. *)
Fixpoint template (parts : list (Completion jsstring)) : Completion jsstring :=
  match parts with
  | [] => Normal []
  | p :: rest =>
      bindC p (fun s => bindC (template rest) (fun t => Normal (s ++ t)))
  end.

(** [a === s] for a string [s]: only that very string is equal to it. *)
Definition strict_eq_string (a : value) (s : jsstring) : bool :=
  match a with
  | Str x => jsstring_eqb x s
  | _ => false
  end.

(** [a || b] on values. *)
Definition or_else (a b : value) : value :=
  if ToBoolean a then a else b.

(** [s.startsWith(p)]. *)
Fixpoint startsWith (s p : jsstring) {struct p} : bool :=
  match p with
  | [] => true
  | c :: p' =>
      match s with
      | [] => false
      | d :: s' => N.eqb d c && startsWith s' p'
      end
  end.

(** ** Dates

    A [Date] holds a time value: an integral number of milliseconds since
    the epoch, or NaN ([None]) for an invalid date. *)
Definition time_value := option Z.

(** [TimeClip]: time values beyond 8.64e15 ms are NaN. *)
Definition TimeClip (t : Z) : time_value :=
  if (Z.abs t <=? 8640000000000000)%Z then Some t else None.

(** [TimeClip] of a number: beyond 8.64e15 ms it is NaN, otherwise its
    integral part. *)
Definition TimeClip_number (x : Q) : time_value :=
  if Qle_bool (-8640000000000000) x && Qle_bool x 8640000000000000
  then Some (Z.quot (Qnum x) (Zpos (Qden x)))
  else None.

Section DateConstructor.

(** [Date.parse], the engine's parser of date strings. *)
Variable Date_parse : jsstring -> option Z.

Definition parse_date (s : jsstring) : time_value :=
  match Date_parse s with Some t => TimeClip t | None => None end.

(** [new Date(v)]: the value is first made a primitive, which throws for an
    object that has none; a string is then parsed, anything else goes
    through [ToNumber] ([undefined] is NaN, [null] and [false] are 0, [true]
    is 1). *)
Definition new_Date (v : value) : Completion time_value :=
  match v with
  | Str s => Normal (parse_date s)
  | Undefined => Normal None
  | Null => Normal (Some 0%Z)
  | Bool true => Normal (Some 1%Z)
  | Bool false => Normal (Some 0%Z)
  | Num (Some x) _ => Normal (TimeClip_number x)
  | Num None _ => Normal None
  | Obj (Some s) => Normal (parse_date s)
  | Obj None => Throw TypeError
  end.

End DateConstructor.

(** [a - b] on two dates: the difference of the time values, NaN if either
    is NaN. *)
Definition date_sub (a b : time_value) : option Z :=
  match a, b with
  | Some x, Some y => Some (x - y)%Z
  | _, _ => None
  end.

(** A double that may be NaN.  The handler only divides an integral
    difference of time values by the constant 31557600000 and compares the
    quotient with 18; the quotient is kept exact.  For integral
    numerators the rounding of the double quotient cannot cross 18: the
    closest quotient below 18 is 18 - 1/31557600000, far more than one unit
    in the last place away. *)
Definition number := option Q.

Definition num_div (a : option Z) (d : Q) : number :=
  match a with
  | Some x => Some (inject_Z x / d)%Q
  | None => None
  end.

Definition Qlt_bool (x y : Q) : bool := negb (Qle_bool y x).

(** [a < b]: false when [a] is NaN. *)
Definition num_lt (a : number) (b : Q) : bool :=
  match a with
  | Some x => Qlt_bool x b
  | None => false
  end.

End Js.

(* ================================================================== *)
(** * Regular expressions: the backtracking matcher of RegExp.test *)
(* ================================================================== *)

Module RegExp.
Import Js.

(** The character classes used by app.js. *)
Inductive CharClass : Type :=
| Digit      (* \d *)
| NonSpace.  (* \S *)

(** [\s]: WhiteSpace and LineTerminator code units. *)
Definition is_space (c : code_unit) : bool :=
  (   (9 <=? c) && (c <=? 13)
   || (c =? 32) || (c =? 160) || (c =? 5760)
   || (8192 <=? c) && (c <=? 8202)
   || (c =? 8232) || (c =? 8233) || (c =? 8239) || (c =? 8287)
   || (c =? 12288) || (c =? 65279))%N.

Definition is_digit (c : code_unit) : bool :=
  ((48 <=? c) && (c <=? 57))%N.

Definition in_class (k : CharClass) (c : code_unit) : bool :=
  match k with
  | Digit => is_digit c
  | NonSpace => negb (is_space c)
  end.

(** Patterns: the fragment of the RegExp grammar app.js uses. *)
Inductive Pattern : Type :=
| PChar (c : code_unit)                          (* a literal character *)
| PClass (k : CharClass)                         (* \d, \S *)
| PSeq (p q : Pattern)                           (* p q *)
| PQuant (p : Pattern) (min : nat) (max : option nat)  (* p{min,max}; + is {1,} *)
| PBol                                           (* ^ *)
| PEol.                                          (* $ *)

(** The matcher works on a state: the index reached and the input left. *)
Record MatchState : Type := { endIndex : nat; remaining : jsstring }.

Definition Continuation := MatchState -> bool.
Definition Matcher := MatchState -> Continuation -> bool.

Definition CharacterSetMatcher (f : code_unit -> bool) : Matcher :=
  fun x c =>
    match remaining x with
    | [] => false
    | ch :: t =>
        if f ch then c {| endIndex := S (endIndex x); remaining := t |}
        else false
    end.

Definition pred_max (max : option nat) : option nat :=
  match max with
  | Some n => Some (pred n)
  | None => None
  end.

(** RepeatMatcher of the language specification (greedy).  Every nested
    call either lowers [min] or has consumed input, so
    [min + length (remaining x)] steps of fuel are never used up. *)
Fixpoint RepeatMatcher (fuel : nat) (m : Matcher) (min : nat) (max : option nat)
    (x : MatchState) (c : Continuation) : bool :=
  match fuel with
  | O => false
  | S fuel' =>
      match max with
      | Some O => c x
      | _ =>
          let d : Continuation := fun y =>
            if (min =? 0)%nat && (endIndex y =? endIndex x)%nat then false
            else RepeatMatcher fuel' m (pred min) (pred_max max) y c in
          if negb (min =? 0)%nat then m x d
          else m x d || c x
      end
  end.

Fixpoint compile (p : Pattern) : Matcher :=
  match p with
  | PChar ch => CharacterSetMatcher (N.eqb ch)
  | PClass k => CharacterSetMatcher (in_class k)
  | PSeq p1 p2 =>
      let m1 := compile p1 in
      let m2 := compile p2 in
      fun x c => m1 x (fun y => m2 y c)
  | PQuant p1 min max =>
      let m := compile p1 in
      fun x c => RepeatMatcher (S (min + List.length (remaining x))) m min max x c
  | PBol => fun x c => if (endIndex x =? 0)%nat then c x else false
  | PEol => fun x c => match remaining x with [] => c x | _ :: _ => false end
  end.

(** The search loop of [RegExp.prototype.exec] without the g and y flags:
    try a match at index 0, then 1, ... up to the length of the input. *)
Fixpoint search (m : Matcher) (i : nat) (input : jsstring) : bool :=
  m {| endIndex := i; remaining := input |} (fun _ => true)
  || match input with
     | [] => false
     | _ :: t => search m (S i) t
     end.

(** [pattern.test(s)]. *)
Definition test (p : Pattern) (s : jsstring) : bool :=
  search (compile p) 0 s.

(** [n] respects the upper bound of a quantifier. *)
Definition within (max : option nat) (n : nat) : Prop :=
  match max with Some m => n <= m | None => True end.

(** The state after the matcher has consumed [u], leaving [t]. *)
Definition advance (x : MatchState) (u t : jsstring) : MatchState :=
  {| endIndex := endIndex x + List.length u; remaining := t |}.

Definition plus (p : Pattern) : Pattern := PQuant p 1 None.
Definition times (n : nat) (p : Pattern) : Pattern := PQuant p n (Some n).

Declare Scope regexp_scope.
Delimit Scope regexp_scope with re.
Infix ">>" := PSeq (at level 61, right associativity) : regexp_scope.

End RegExp.

(* ================================================================== *)
(** * Date strings of the form YYYY-MM-DD *)
(* ================================================================== *)

(** The date-only form of the date-time string format: the value an
    [<input type="date">] submits.  [Date.parse] reads it as midnight UTC.
    This reader knows that form only, and only real calendar days; an
    engine reads more (date-times, other notations, and some engines roll a
    day past the end of a month over).  It stands in for the engine's
    parser in the worked examples, on dates where the two agree; the
    handler itself is stated for any parser. *)
Module DateOnly.
Import Js RegExp.

Definition digit (c : code_unit) : option Z :=
  if is_digit c then Some (Z.of_N c - 48)%Z else None.

Fixpoint number_of (ds : jsstring) (acc : Z) : option Z :=
  match ds with
  | [] => Some acc
  | c :: t =>
      match digit c with
      | Some d => number_of t (10 * acc + d)%Z
      | None => None
      end
  end.

Definition is_leap (y : Z) : bool :=
  ((y mod 4 =? 0) && negb (y mod 100 =? 0) || (y mod 400 =? 0))%Z.

Definition days_in_month (y m : Z) : Z :=
  (if m =? 2 then (if is_leap y then 29 else 28)
   else if (m =? 4) || (m =? 6) || (m =? 9) || (m =? 11) then 30
   else 31)%Z.

(** Days from 1970-01-01 to the given civil date. *)
Definition days_from_civil (y m d : Z) : Z :=
  (let y' := if m <=? 2 then y - 1 else y in
   let era := y' / 400 in
   let yoe := y' - era * 400 in
   let mp := if m <=? 2 then m + 9 else m - 3 in
   let doy := (153 * mp + 2) / 5 + d - 1 in
   let doe := yoe * 365 + yoe / 4 - yoe / 100 + doy in
   era * 146097 + doe - 719468)%Z.

Definition parse (s : jsstring) : option Z :=
  match s with
  | [y1; y2; y3; y4; h1; m1; m2; h2; d1; d2] =>
      if (N.eqb h1 (chr "-") && N.eqb h2 (chr "-"))%bool then
        match number_of [y1; y2; y3; y4] 0, number_of [m1; m2] 0,
              number_of [d1; d2] 0 with
        | Some y, Some m, Some d =>
            if ((1 <=? m) && (m <=? 12) && (1 <=? d)
                && (d <=? days_in_month y m))%Z%bool
            then Some (days_from_civil y m d * 86400000)%Z
            else None
        | _, _, _ => None
        end
      else None
  | _ => None
  end.

End DateOnly.

(* ================================================================== *)
(** * app.js *)
(* ================================================================== *)

Module App.
Import Js RegExp.

(** ** Data *)

(** [req.body]: the submitted fields by name; a name that was not submitted
    reads as [undefined].  The body parsers and multer always leave an
    object there, if only an empty one. *)
Definition Body := list (string * value).

Fixpoint field (b : Body) (name : string) : value :=
  match b with
  | [] => Undefined
  | (k, v) :: b' => if String.eqb k name then v else field b' name
  end.

(** The uploaded file as multer describes it; [path] is where the disk
    storage puts it ('uploads/' followed by a timestamp and the original
    extension). *)
Record File : Type := {
  originalname : jsstring;
  mimetype : jsstring;
  path : jsstring
}.

(** [req] as the handler sees it. *)
Record Request : Type := {
  body : Body;
  file : option File
}.

(** A document of the Student model (studentSchema). [dob] is a Date,
    [photo] is a path or null, [agreed] a Boolean. *)
Record Student : Type := {
  fullName : value;
  dob : time_value;
  gender : value;
  email : value;
  phone : value;
  address : value;
  previousSchool : value;
  result : value;
  classApplying : value;
  photo : option jsstring;
  agreed : bool
}.

Record MailOptions : Type := {
  from : value;
  to : value;
  subject : jsstring;
  text : jsstring;
  attachments : list jsstring   (* the path of each attachment *)
}.

Inductive JsonBody : Type :=
| error (reason : string)       (* { error: reason } *)
| message (msg : string).       (* { message: msg } *)

(** [res.status(code).json(payload)]. *)
Record Response : Type := {
  status : Z;
  json : JsonBody
}.

(** ** Effects

    The handler talks to the document store, the mail transport and the
    console.  The world records the documents stored, the mails delivered
    and every call made, in order. *)
Inductive Call : Type :=
| CallSave (s : Student)
| CallSendMail (m : MailOptions)
| CallConsoleError (e : Error).

Record World : Type := {
  db : list Student;
  outbox : list MailOptions;
  calls : list Call
}.

Definition M (A : Type) : Type := World -> Completion A * World.

Definition ret {A} (a : A) : M A := fun w => (Normal a, w).

Definition bind {A B} (m : M A) (f : A -> M B) : M B :=
  fun w =>
    match m w with
    | (Normal a, w') => f a w'
    | (Throw e, w') => (Throw e, w')
    end.

(** [try { m } catch (err) { h err }]. *)
Definition try_catch {A} (m : M A) (h : Error -> M A) : M A :=
  fun w =>
    match m w with
    | (Normal a, w') => (Normal a, w')
    | (Throw e, w') => h e w'
    end.

(** An evaluation inside the handler: its throw is the handler's. *)
Definition lift {A} (c : Completion A) : M A := fun w => (c, w).

Notation "'await' m ;; k" := (bind m (fun _ => k))
  (at level 61, m at next level, right associativity).

Notation "'const' x <- c ;; k" := (bind (lift c) (fun x => k))
  (at level 61, x name, c at next level, right associativity).

Definition record (c : Call) (w : World) : World :=
  {| db := db w; outbox := outbox w; calls := calls w ++ [c] |}.

(** What the handler takes from its surroundings: the engine's date parser,
    the clock, the environment variables and, for each call to the store or
    to the mail transport, whether it fails and with which error. *)
Record Env : Type := {
  Date_parse : jsstring -> option Z;
  Date_now : Z;
  GMAIL_USER : value;
  ADMIN_EMAIL : value;
  save_error : Student -> option Error;
  sendMail_error : MailOptions -> option Error
}.

Section Handler.

Variable env : Env.

(** [newStudent.save()]: stores the document, or throws and stores nothing. *)
Definition save (s : Student) : M unit :=
  fun w =>
    let w1 := record (CallSave s) w in
    match save_error env s with
    | Some e => (Throw e, w1)
    | None =>
        (Normal tt,
         {| db := db w1 ++ [s]; outbox := outbox w1; calls := calls w1 |})
    end.

(** [transporter.sendMail(mailOptions)]. *)
Definition sendMail (m : MailOptions) : M unit :=
  fun w =>
    let w1 := record (CallSendMail m) w in
    match sendMail_error env m with
    | Some e => (Throw e, w1)
    | None =>
        (Normal tt,
         {| db := db w1; outbox := outbox w1 ++ [m]; calls := calls w1 |})
    end.

Definition console_error (e : Error) : M unit :=
  fun w => (Normal tt, record (CallConsoleError e) w).

(** ** The upload filter *)

(** [fileFilter]: the arguments it gives its callback, an error or null and
    the accept flag. *)
Definition fileFilter (f : File) : option Error * bool :=
  if startsWith (mimetype f) (lit "image/") then (None, true)
  else (Some "Only images are allowed"%string, false).

(** ** The validation patterns *)

(** /\S+@\S+\.\S+/ *)
Definition email_re : Pattern :=
  (plus (PClass NonSpace) >> PChar (chr "@") >> plus (PClass NonSpace) >>
   PChar (chr ".") >> plus (PClass NonSpace))%re.

(** /^\d{3}-\d{3}-\d{4}$/ *)
Definition phone_re : Pattern :=
  (PBol >> times 3 (PClass Digit) >> PChar (chr "-") >> times 3 (PClass Digit) >>
   PChar (chr "-") >> times 4 (PClass Digit) >> PEol)%re.

(** ** The handler of POST /submit *)

Definition nl : jsstring := [10%N].

(** 1000 * 60 * 60 * 24 * 365.25 *)
Definition ms_per_year : Q := (1000 * 60 * 60 * 24 * (36525 # 100))%Q.

(** [const birthDate = new Date(dob)] *)
Definition birthDate (req : Request) : Completion time_value :=
  new_Date (Date_parse env) (field (body req) "dob").

(** [(new Date() - birthDate) / (1000 * 60 * 60 * 24 * 365.25)] *)
Definition age_at (birthDate : time_value) : number :=
  num_div (date_sub (Some (Date_now env)) birthDate) ms_per_year.

(** [const age]: there is one when [new Date(dob)] did not throw. *)
Definition age (req : Request) : Completion number :=
  bindC (birthDate req) (fun birthDate => Normal (age_at birthDate)).

(** [const newStudent = new Student({ ... })], with the [birthDate] at
    hand. *)
Definition newStudent (birthDate : time_value) (req : Request) : Student :=
  let b := body req in
  {| fullName := field b "fullName";
     dob := birthDate;
     gender := field b "gender";
     email := field b "email";
     phone := field b "phone";
     address := field b "address";
     previousSchool := field b "previousSchool";
     result := field b "result";
     classApplying := field b "classApplying";
     photo := match file req with Some f => Some (path f) | None => None end;
     agreed := true |}.

(** The [text] of the mail: the template literal, line by line.  Each
    substitution converts a field to a string, and throws if it cannot. *)
Definition mail_text (req : Request) : Completion jsstring :=
  let b := body req in
  template
    [Normal (nl ++ lit "        New submission:" ++
             nl ++ lit "        Full Name: "); ToString (field b "fullName");
     Normal (nl ++ lit "        DOB: "); ToString (field b "dob");
     Normal (nl ++ lit "        Gender: "); ToString (field b "gender");
     Normal (nl ++ lit "        Email: "); ToString (field b "email");
     Normal (nl ++ lit "        Phone: "); ToString (field b "phone");
     Normal (nl ++ lit "        Address: "); ToString (field b "address");
     Normal (nl ++ lit "        Previous School: ");
     ToString (or_else (field b "previousSchool") (Str (lit "N/A")));
     Normal (nl ++ lit "        Result: "); ToString (field b "result");
     Normal (nl ++ lit "        Class Applying: ");
     ToString (field b "classApplying");
     Normal (nl ++ lit "        Photo: ");
     Normal (match file req with
             | Some _ => lit "Attached"
             | None => lit "None"
             end);
     Normal (nl ++ lit "      ")].

(** [const mailOptions = { ... }] *)
Definition mailOptions (req : Request) : Completion MailOptions :=
  bindC (mail_text req) (fun text =>
    Normal
      {| from := GMAIL_USER env;
         to := or_else (ADMIN_EMAIL env) (Str (lit "admin@example.com"));
         subject := lit "New Student Admission Submission";
         text := text;
         attachments :=
           match file req with Some f => [path f] | None => [] end |}).

Definition submit (req : Request) : M Response :=
  try_catch
    (let b := body req in
     if negb (ToBoolean (field b "fullName")) || negb (ToBoolean (field b "dob"))
        || negb (ToBoolean (field b "gender")) || negb (ToBoolean (field b "email"))
        || negb (ToBoolean (field b "phone")) || negb (ToBoolean (field b "address"))
        || negb (ToBoolean (field b "result"))
        || negb (ToBoolean (field b "classApplying"))
        || negb (strict_eq_string (field b "agreed") (lit "on"))
     then ret {| status := 400%Z; json := error "Missing required fields" |}
     else
     const birthDate <- birthDate req ;;
     let age := age_at birthDate in
     if num_lt age 18%Q
     then ret {| status := 400%Z; json := error "Must be at least 18 years old" |}
     else
     const email <- ToString (field b "email") ;;
     if negb (test email_re email)
     then ret {| status := 400%Z; json := error "Invalid email format" |}
     else
     const phone <- ToString (field b "phone") ;;
     if negb (test phone_re phone)
     then ret {| status := 400%Z; json := error "Invalid phone format" |}
     else
     await save (newStudent birthDate req) ;;
     const mailOptions <- mailOptions req ;;
     await sendMail mailOptions ;;
     ret {| status := 200%Z; json := message "Submission successful" |})
    (fun err =>
       await console_error err ;;
       ret {| status := 500%Z; json := error "Server error" |}).

(** ** The route: upload.single('photo'), then the handler *)

(** What arrives: the fields and at most one file part, in the field
    'photo'. *)
Record Incoming : Type := {
  fields : Body;
  upload : option File
}.

Inductive Outcome : Type :=
| Responded (r : Response)     (* the handler answered *)
| NextError (e : Error).       (* next(err): the handler was not run *)

(** multer's [single] on such a request, when multer itself finds nothing
    wrong with it (no file in another field, no second file, a body it can
    read, a disk it can write): the file part goes through [fileFilter]; an
    error aborts the request with [next(err)], a refusal without error drops
    the file, an accepted file is stored and becomes [req.file]. *)
Definition upload_single (i : Incoming) : Error + Request :=
  match upload i with
  | None => inr {| body := fields i; file := None |}
  | Some f =>
      match fileFilter f with
      | (Some e, _) => inl e
      | (None, true) => inr {| body := fields i; file := Some f |}
      | (None, false) => inr {| body := fields i; file := None |}
      end
  end.

Definition post_submit (i : Incoming) (w : World) : Outcome * World :=
  match upload_single i with
  | inl e => (NextError e, w)
  | inr req =>
      match submit req w with
      | (Normal r, w') => (Responded r, w')
      | (Throw e, w') => (NextError e, w')
      end
  end.

End Handler.

End App.

(* ================================================================== *)
(** * The validation rules in the words of the specification *)
(* ================================================================== *)

Module Spec.
Import Js RegExp App.

(** A run of one or more non-whitespace characters. *)
Definition non_whitespace_run (u : jsstring) : Prop :=
  u <> [] /\ Forall (fun ch => is_space ch = false) u.

(** The email pattern: somewhere in the text, a non-whitespace run, an '@',
    another non-whitespace run, a '.', and a final non-whitespace run. *)
Definition email_pattern (s : jsstring) : Prop :=
  exists pre u v w post,
    s = pre ++ u ++ [chr "@"] ++ v ++ [chr "."] ++ w ++ post /\
    non_whitespace_run u /\ non_whitespace_run v /\ non_whitespace_run w.

(** Exactly [n] decimal digits. *)
Definition digits (n : nat) (u : jsstring) : Prop :=
  List.length u = n /\ Forall (fun ch => (48 <= ch <= 57)%N) u.

(** The phone pattern: the whole text is DDD-DDD-DDDD. *)
Definition phone_pattern (s : jsstring) : Prop :=
  exists a b c,
    s = a ++ [chr "-"] ++ b ++ [chr "-"] ++ c /\
    digits 3 a /\ digits 3 b /\ digits 4 c.

(** The MIME type begins with "image/". *)
Definition image_type (mime : jsstring) : Prop :=
  exists rest, mime = lit "image/" ++ rest.

Definition required_fields : list string :=
  ["fullName"; "dob"; "gender"; "email"; "phone"; "address"; "result";
   "classApplying"]%string.

(** Rule 1: every required field is there and not empty, and the agreement
    flag is affirmed. *)
Definition presence_rule (b : Body) : Prop :=
  Forall (fun name => ToBoolean (field b name) = true) required_fields /\
  field b "agreed" = Str (lit "on").

(** Rule 2: there is a computed age and it is not under 18. *)
Definition age_rule (env : Env) (req : Request) : Prop :=
  exists a, age env req = Normal a /\ num_lt a 18%Q = false.

(** Rule 3 and rule 4: the field has a text and the text has the form. *)
Definition email_rule (b : Body) : Prop :=
  exists s, ToString (field b "email") = Normal s /\ email_pattern s.

Definition phone_rule (b : Body) : Prop :=
  exists s, ToString (field b "phone") = Normal s /\ phone_pattern s.

(** A rule fails when the handler can evaluate it and finds it broken. *)
Definition under_age (env : Env) (req : Request) : Prop :=
  exists a, age env req = Normal a /\ num_lt a 18%Q = true.

Definition email_malformed (b : Body) : Prop :=
  exists s, ToString (field b "email") = Normal s /\ ~ email_pattern s.

Definition phone_malformed (b : Body) : Prop :=
  exists s, ToString (field b "phone") = Normal s /\ ~ phone_pattern s.

(** The text of a value that has one. *)
Definition text_of (v : value) : jsstring :=
  match ToString v with
  | Normal s => s
  | Throw _ => []
  end.

(** A fully valid submission passes the four rules. *)
Definition valid (env : Env) (req : Request) : Prop :=
  presence_rule (body req) /\ age_rule env req /\
  email_rule (body req) /\ phone_rule (body req).

(** The responses of the handler. *)
Definition bad_request (reason : string) : Response :=
  {| status := 400%Z; json := error reason |}.

Definition server_error : Response :=
  {| status := 500%Z; json := error "Server error" |}.

Definition success : Response :=
  {| status := 200%Z; json := message "Submission successful" |}.

(** The world after [console.error(e)] as the only call. *)
Definition logged (e : Error) (w : World) : World :=
  {| db := db w; outbox := outbox w; calls := calls w ++ [CallConsoleError e] |}.



End Spec.

(* ================================================================== *)
(** * Worked examples *)
(* ================================================================== *)

Module Example.
Import Js App.
Local Open Scope string_scope.

Definition world : World := {| db := []; outbox := []; calls := [] |}.

(** An environment where the store and the mail transport work; the clock
    reads 2026-11-02T00:00:00Z. *)
Definition env : Env :=
  {| Date_parse := DateOnly.parse;
     Date_now := 1793577600000%Z;
     GMAIL_USER := Str (lit "admissions@gmail.com");
     ADMIN_EMAIL := Undefined;
     save_error := fun _ => None;
     sendMail_error := fun _ => None |}.

(** The same with a store that refuses every write. *)
Definition env_store_down : Env :=
  {| Date_parse := DateOnly.parse;
     Date_now := 1793577600000%Z;
     GMAIL_USER := Str (lit "admissions@gmail.com");
     ADMIN_EMAIL := Undefined;
     save_error := fun _ => Some "MongoNetworkError";
     sendMail_error := fun _ => None |}.

(** The same with a mail transport that refuses every mail. *)
Definition env_mail_down : Env :=
  {| Date_parse := DateOnly.parse;
     Date_now := 1793577600000%Z;
     GMAIL_USER := Str (lit "admissions@gmail.com");
     ADMIN_EMAIL := Undefined;
     save_error := fun _ => None;
     sendMail_error := fun _ => Some "EAUTH" |}.

(** The submission of the specification's example. *)
Definition submission : Body :=
  [("fullName", Str (lit "A B"));
   ("dob", Str (lit "2000-01-01"));
   ("gender", Str (lit "F"));
   ("email", Str (lit "a@b.com"));
   ("phone", Str (lit "123-456-7890"));
   ("address", Str (lit "X"));
   ("result", Str (lit "Pass"));
   ("classApplying", Str (lit "10"));
   ("agreed", Str (lit "on"))].

(** A submission with one field changed. *)
Definition with_field (name : string) (v : value) (b : Body) : Body :=
  (name, v) :: b.

Definition request (b : Body) : Request := {| body := b; file := None |}.


Definition bad_email : Request :=
  request (with_field "email" (Str (lit "a.b@c")) submission).

(** The second example of the specification. *)
Definition bad_phone : Request :=
  request (with_field "phone" (Str (lit "1234567890")) submission).

Definition bad_date_and_phone : Request :=
  request (with_field "dob" (Str (lit "not-a-date"))
             (with_field "phone" (Str (lit "1234567890")) submission)).

(** Under age, with a bad email and a bad phone. *)
Definition all_wrong : Request :=
  request (with_field "dob" (Str (lit "2015-06-01"))
             (with_field "email" (Str (lit "nobody"))
                (with_field "phone" (Str (lit "12345")) submission))).

(** The JSON object {"toString": 1}: its own [toString] is not a function
    and [valueOf] gives the object back, so it has no primitive. *)
Definition no_primitive : value := Obj None.

(** The example sent as JSON with such an object for a field. *)
Definition object_dob : Request :=
  request (with_field "dob" no_primitive submission).

Definition object_email : Request :=
  request (with_field "email" no_primitive submission).

Definition object_phone : Request :=
  request (with_field "phone" no_primitive submission).

Definition object_name : Request :=
  request (with_field "fullName" no_primitive submission).

Definition bad_email_and_phone : Request :=
  request (with_field "email" (Str (lit "nobody"))
             (with_field "phone" (Str (lit "12345")) submission)).

Definition text_file : File :=
  {| originalname := lit "notes.txt";
     mimetype := lit "text/plain";
     path := lit "uploads/1793577600000.txt" |}.

End Example.

(* ================================================================== *)
(** * The disk storage of uploads, and further examples *)
(* ================================================================== *)

Module Storage.
Import Js RegExp.

(** [String(n)] for an integral number below 10^21 in size, as every clock
    reading is: its decimal digits, after a '-' when it is negative. *)
Definition decimal (n : Z) : jsstring :=
  lit (NilEmpty.string_of_int (Z.to_int n)).

(** What [Date.now()] can return: a time value. *)
Definition clock_reading (n : Z) : Prop :=
  (Z.abs n <= 8640000000000000)%Z.

(** [destination]: the callback names the directory 'uploads/'. *)
Definition destination : jsstring := lit "uploads/".

(** [filename]: [Date.now() + path.extname(file.originalname)], the clock
    reading followed by the extension; [ext] stands for what [path.extname]
    returns. *)
Definition filename (now : Z) (ext : jsstring) : jsstring :=
  decimal now ++ ext.

(** What [path.extname] returns: nothing, or a '.' and what follows it. *)
Definition extension (ext : jsstring) : Prop :=
  ext = [] \/ exists rest, ext = chr "." :: rest.

(** A character of a numeral: a digit or the sign. *)
Definition numeral_char (c : code_unit) : Prop :=
  is_digit c = true \/ c = chr "-".

End Storage.

Module Gallery.
Import Js App.

(** A photo as multer hands it over once stored. *)
Definition photo_file : File :=
  {| originalname := lit "me.png";
     mimetype := lit "image/png";
     path := lit "uploads/1793577600000.png" |}.

Definition with_photo : Incoming :=
  {| fields := Example.submission; upload := Some photo_file |}.

End Gallery.

Module Frame.
Import Js App.

(** The fields validation only wants non-empty, and those it reads. *)
Definition free_text_fields : list string :=
  ["fullName"; "gender"; "address"; "result"; "classApplying"]%string.

Definition checked_fields : list string :=
  ["dob"; "email"; "phone"; "agreed"]%string.

(** Two bodies that validation cannot tell apart. *)
Definition same_for_validation (b b' : Body) : Prop :=
  (forall name, In name free_text_fields ->
                ToBoolean (field b name) = ToBoolean (field b' name)) /\
  (forall name, In name checked_fields -> field b name = field b' name).

(** The date of birth, the email and the phone each have a string form, as
    those of a form submission have. *)
Definition readable (b : Body) : Prop :=
  (exists s, ToString (field b "dob") = Normal s) /\
  (exists s, ToString (field b "email") = Normal s) /\
  (exists s, ToString (field b "phone") = Normal s).

End Frame.

(* ================================================================== *)
(** * The matcher on the two patterns of app.js *)
(* ================================================================== *)

Module RegExpFacts.
Import Js RegExp App Spec.

Lemma advance_nil x : advance x [] (remaining x) = x.
Proof. destruct x; unfold advance; simpl. now rewrite Nat.add_0_r. Qed.

Lemma advance_cons x ch u t :
  advance {| endIndex := S (endIndex x); remaining := u ++ t |} u t
  = advance x (ch :: u) t.
Proof. unfold advance; simpl. f_equal. lia. Qed.

Lemma CharacterSetMatcher_true f x c :
  CharacterSetMatcher f x c = true <->
  exists ch t, remaining x = ch :: t /\ f ch = true /\
               c {| endIndex := S (endIndex x); remaining := t |} = true.
Proof.
  unfold CharacterSetMatcher. destruct (remaining x) as [|ch t].
  - split; [discriminate | intros (? & ? & E & _); discriminate E].
  - destruct (f ch) eqn:F; split.
    + intro H. now exists ch, t.
    + intros (ch' & t' & E & _ & H). now inversion E; subst.
    + discriminate.
    + intros (ch' & t' & E & F' & _). inversion E; subst. congruence.
Qed.

Lemma within_pred max n : within max (S n) -> within (pred_max max) n.
Proof. destruct max as [m|]; simpl; lia. Qed.

Lemma within_pred_min max n : within max n -> within (pred_max max) (pred n).
Proof. destruct max as [m|]; simpl; lia. Qed.

Lemma within_succ max n :
  max <> Some 0 -> within (pred_max max) n -> within max (S n).
Proof. destruct max as [[|m]|]; simpl; try lia; congruence. Qed.

Lemma S_eqb_self n : (S n =? n)%nat = false.
Proof. apply Nat.eqb_neq. lia. Qed.

Lemma RepeatMatcher_unfold fuel m min max x c :
  max <> Some 0 ->
  RepeatMatcher (S fuel) m min max x c =
  let d : Continuation := fun y =>
    if (min =? 0)%nat && (endIndex y =? endIndex x)%nat then false
    else RepeatMatcher fuel m (pred min) (pred_max max) y c in
  if negb (min =? 0)%nat then m x d else m x d || c x.
Proof. destruct max as [[|k]|]; [congruence | reflexivity | reflexivity]. Qed.

(** One more iteration of a character set: it consumes one character and
    repeats. *)
Lemma repeat_iteration f fuel min max x c :
  CharacterSetMatcher f x (fun y =>
    if (min =? 0)%nat && (endIndex y =? endIndex x)%nat then false
    else RepeatMatcher fuel (CharacterSetMatcher f) (pred min) (pred_max max) y c)
  = true <->
  exists ch t, remaining x = ch :: t /\ f ch = true /\
    RepeatMatcher fuel (CharacterSetMatcher f) (pred min) (pred_max max)
      {| endIndex := S (endIndex x); remaining := t |} c = true.
Proof.
  rewrite CharacterSetMatcher_true. cbn [endIndex].
  rewrite S_eqb_self, andb_false_r. reflexivity.
Qed.

Lemma RepeatMatcher_class f :
  forall fuel min max x c,
    min + List.length (remaining x) < fuel ->
    within max min ->
    (RepeatMatcher fuel (CharacterSetMatcher f) min max x c = true <->
     exists u t, remaining x = u ++ t /\ forallb f u = true /\
                 min <= List.length u /\ within max (List.length u) /\
                 c (advance x u t) = true).
Proof.
  induction fuel as [|fuel IH]; intros min max x c Hfuel Hmm; [lia|].
  assert (Hz : max = Some 0 \/ max <> Some 0)
    by (destruct max as [[|k]|]; [now left | right; congruence | right; congruence]).
  destruct Hz as [-> | Hnz].
  - (* {min,0}: the continuation is called at once *)
    simpl in Hmm. assert (min = 0) by lia. subst min. simpl. split.
    + intro H. exists [], (remaining x). rewrite advance_nil. simpl. auto.
    + intros (u & t & E & _ & _ & Hu & H). simpl in Hu.
      destruct u; [|simpl in Hu; lia]. simpl in E. subst t.
      now rewrite advance_nil in H.
  - rewrite RepeatMatcher_unfold by assumption. cbv zeta. split.
    + intro H.
      assert (Hd : (min = 0 /\ c x = true) \/
                   exists ch t, remaining x = ch :: t /\ f ch = true /\
                     RepeatMatcher fuel (CharacterSetMatcher f) (pred min)
                       (pred_max max)
                       {| endIndex := S (endIndex x); remaining := t |} c = true).
      { destruct min; simpl negb in H; cbv iota in H.
        - apply orb_true_iff in H as [H|H]; [right | now left].
          now apply repeat_iteration in H.
        - right. now apply repeat_iteration in H. }
      destruct Hd as [[-> Hc] | (ch & t & E & F & Hd)].
      * exists [], (remaining x). rewrite advance_nil. simpl. repeat split; auto.
      * apply IH in Hd; cbn [remaining];
          [| rewrite E in Hfuel; simpl in Hfuel; lia | now apply within_pred_min].
        destruct Hd as (u & t' & E' & F' & Hmin & Hmax & Hc).
        cbn [remaining] in E'. subst t.
        exists (ch :: u), t'. rewrite (advance_cons x ch u t') in Hc.
        simpl. rewrite F, F'. repeat split; auto; [lia | now apply within_succ].
    + intros (u & t & E & F & Hmin & Hmax & Hc).
      destruct u as [|ch u].
      * simpl in Hmin. assert (min = 0) by lia. subst min. simpl.
        simpl in E. subst t. rewrite advance_nil in Hc. rewrite Hc.
        apply orb_true_r.
      * assert (Hd : CharacterSetMatcher f x (fun y =>
                     if (min =? 0)%nat && (endIndex y =? endIndex x)%nat then false
                     else RepeatMatcher fuel (CharacterSetMatcher f) (pred min)
                            (pred_max max) y c) = true).
        { apply repeat_iteration. exists ch, (u ++ t).
          simpl in F. apply andb_true_iff in F as [F1 F2].
          repeat split; auto.
          apply IH; cbn [remaining];
            [rewrite E in Hfuel; simpl in Hfuel; rewrite length_app in *; lia
            | now apply within_pred_min |].
          exists u, t. rewrite (advance_cons x ch u t). simpl in *.
          repeat split; auto; [lia | now apply within_pred]. }
        destruct min; simpl; [apply orb_true_iff; now left | exact Hd].
Qed.

Lemma compile_class_quant k min max x c :
  within max min ->
  (compile (PQuant (PClass k) min max) x c = true <->
   exists u t, remaining x = u ++ t /\ forallb (in_class k) u = true /\
               min <= List.length u /\ within max (List.length u) /\
               c (advance x u t) = true).
Proof.
  intro H. cbn [compile]. apply RepeatMatcher_class; [lia | exact H].
Qed.

Lemma compile_char a x c :
  compile (PChar a) x c = true <->
  exists t, remaining x = a :: t /\
            c {| endIndex := S (endIndex x); remaining := t |} = true.
Proof.
  cbn [compile]. rewrite CharacterSetMatcher_true. split.
  - intros (ch & t & E & F & H). apply N.eqb_eq in F. subst ch. now exists t.
  - intros (t & E & H). exists a, t. repeat split; auto. apply N.eqb_refl.
Qed.

Lemma compile_seq p q x c :
  compile (PSeq p q) x c = compile p x (fun y => compile q y c).
Proof. reflexivity. Qed.

Lemma nonspace_run_forallb u :
  (forallb (in_class NonSpace) u = true /\ 1 <= List.length u) <->
  non_whitespace_run u.
Proof.
  unfold non_whitespace_run. rewrite forallb_forall, Forall_forall. split.
  - intros [H L]. split; [destruct u; simpl in L; [lia | discriminate] |].
    intros ch Hin. specialize (H ch Hin). simpl in H.
    now apply negb_true_iff in H.
  - intros [N H]. split; [| destruct u; simpl; [congruence | lia]].
    intros ch Hin. simpl. apply negb_true_iff. now apply H.
Qed.

Lemma digits_forallb n u :
  (forallb (in_class Digit) u = true /\ n <= List.length u /\ List.length u <= n)
  <-> digits n u.
Proof.
  unfold digits. rewrite forallb_forall, Forall_forall. split.
  - intros (H & L1 & L2). split; [lia|]. intros ch Hin.
    specialize (H ch Hin). simpl in H. unfold is_digit in H.
    apply andb_true_iff in H as [A B].
    apply N.leb_le in A, B. lia.
  - intros [L H]. repeat split; try lia. intros ch Hin.
    simpl. unfold is_digit. apply andb_true_iff.
    specialize (H ch Hin). split; apply N.leb_le; lia.
Qed.

(** A match of the email pattern starting at the current position. *)
Lemma email_re_match x :
  compile email_re x (fun _ => true) = true <->
  exists u v w post,
    remaining x = u ++ [chr "@"] ++ v ++ [chr "."] ++ w ++ post /\
    non_whitespace_run u /\ non_whitespace_run v /\ non_whitespace_run w.
Proof.
  unfold email_re, plus. split.
  - intro H.
    rewrite compile_seq in H.
    apply compile_class_quant in H; [| exact I].
    destruct H as (u & t1 & E1 & F1 & L1 & _ & H).
    rewrite compile_seq in H. apply compile_char in H as (t2 & E2 & H).
    rewrite compile_seq in H.
    apply compile_class_quant in H; [| exact I].
    destruct H as (v & t3 & E3 & F3 & L3 & _ & H).
    rewrite compile_seq in H. apply compile_char in H as (t4 & E4 & H).
    apply compile_class_quant in H; [| exact I].
    destruct H as (w & post & E5 & F5 & L5 & _ & _).
    cbn [remaining advance] in *. subst.
    exists u, v, w, post. split; [now rewrite E1 |].
    repeat split; apply nonspace_run_forallb; auto.
  - intros (u & v & w & post & E & Hu & Hv & Hw).
    apply nonspace_run_forallb in Hu as [Fu Lu], Hv as [Fv Lv], Hw as [Fw Lw].
    rewrite compile_seq. apply compile_class_quant; [exact I|].
    exists u, ([chr "@"] ++ v ++ [chr "."] ++ w ++ post).
    repeat split; auto.
    rewrite compile_seq. apply compile_char.
    exists (v ++ [chr "."] ++ w ++ post). split; [reflexivity|].
    rewrite compile_seq. apply compile_class_quant; [exact I|].
    exists v, ([chr "."] ++ w ++ post). repeat split; auto.
    rewrite compile_seq. apply compile_char.
    exists (w ++ post). split; [reflexivity|].
    apply compile_class_quant; [exact I|].
    exists w, post. repeat split; auto.
Qed.

Lemma search_spec m : forall input i,
  search m i input = true <->
  exists pre suf, input = pre ++ suf /\
    m {| endIndex := i + List.length pre; remaining := suf |} (fun _ => true) = true.
Proof.
  induction input as [|ch t IH]; intro i; simpl.
  - rewrite orb_false_r. split.
    + intro H. exists [], []. simpl. now rewrite Nat.add_0_r.
    + intros (pre & suf & E & H). symmetry in E.
      apply app_eq_nil in E as [-> ->]. simpl in H. now rewrite Nat.add_0_r in H.
  - rewrite orb_true_iff, IH. split.
    + intros [H | (pre & suf & E & H)].
      * exists [], (ch :: t). simpl. now rewrite Nat.add_0_r.
      * exists (ch :: pre), suf. simpl. rewrite E. split; auto.
        now replace (i + S (List.length pre)) with (S i + List.length pre) by lia.
    + intros (pre & suf & E & H). destruct pre as [|a pre].
      * left. simpl in *. subst suf. now rewrite Nat.add_0_r in H.
      * right. simpl in E. inversion E; subst. exists pre, suf. split; auto.
        simpl in H.
        now replace (i + S (List.length pre)) with (S i + List.length pre) in H by lia.
Qed.

Lemma test_email_re s : test email_re s = true <-> email_pattern s.
Proof.
  unfold test, email_pattern. rewrite search_spec. split.
  - intros (pre & suf & E & H). apply email_re_match in H.
    destruct H as (u & v & w & post & E' & H). cbn [remaining] in E'.
    exists pre, u, v, w, post. subst. auto.
  - intros (pre & u & v & w & post & E & H).
    exists pre, (u ++ [chr "@"] ++ v ++ [chr "."] ++ w ++ post). split; auto.
    apply email_re_match. exists u, v, w, post. auto.
Qed.

Lemma phone_re_match x :
  compile phone_re x (fun _ => true) = true <->
  endIndex x = 0 /\
  exists a b c,
    remaining x = a ++ [chr "-"] ++ b ++ [chr "-"] ++ c /\
    digits 3 a /\ digits 3 b /\ digits 4 c.
Proof.
  unfold phone_re, times. split.
  - intro H. rewrite compile_seq in H. cbn [compile] in H.
    destruct (endIndex x =? 0)%nat eqn:E0; [| discriminate].
    apply Nat.eqb_eq in E0. split; [exact E0|].
    change (compile (PQuant (PClass Digit) 3 (Some 3) >> PChar (chr "-") >>
              PQuant (PClass Digit) 3 (Some 3) >> PChar (chr "-") >>
              PQuant (PClass Digit) 4 (Some 4) >> PEol)%re x (fun _ => true) = true) in H.
    rewrite compile_seq in H.
    apply compile_class_quant in H; [| simpl; lia].
    destruct H as (a & t1 & E1 & F1 & L1 & M1 & H).
    rewrite compile_seq in H. apply compile_char in H as (t2 & E2 & H).
    rewrite compile_seq in H.
    apply compile_class_quant in H; [| simpl; lia].
    destruct H as (b & t3 & E3 & F3 & L3 & M3 & H).
    rewrite compile_seq in H. apply compile_char in H as (t4 & E4 & H).
    rewrite compile_seq in H.
    apply compile_class_quant in H; [| simpl; lia].
    destruct H as (c & t5 & E5 & F5 & L5 & M5 & H).
    cbn [compile remaining advance] in *.
    destruct t5; [| discriminate]. subst.
    exists a, b, c. split; [rewrite E1, app_nil_r; reflexivity |].
    simpl in M1, M3, M5.
    split; [| split]; apply digits_forallb; auto.
  - intros (E0 & a & b & c & E & Ha & Hb & Hc).
    apply digits_forallb in Ha as (Fa & La & Ma), Hb as (Fb & Lb & Mb),
                            Hc as (Fc & Lc & Mc).
    rewrite compile_seq. cbn [compile]. rewrite E0. cbn [Nat.eqb].
    change (compile (PQuant (PClass Digit) 3 (Some 3) >> PChar (chr "-") >>
              PQuant (PClass Digit) 3 (Some 3) >> PChar (chr "-") >>
              PQuant (PClass Digit) 4 (Some 4) >> PEol)%re x (fun _ => true) = true).
    rewrite compile_seq. apply compile_class_quant; [simpl; lia|].
    exists a, ([chr "-"] ++ b ++ [chr "-"] ++ c). repeat split; auto.
    rewrite compile_seq. apply compile_char.
    exists (b ++ [chr "-"] ++ c). split; [reflexivity|].
    rewrite compile_seq. apply compile_class_quant; [simpl; lia|].
    exists b, ([chr "-"] ++ c). repeat split; auto.
    rewrite compile_seq. apply compile_char.
    exists c. split; [reflexivity|].
    rewrite compile_seq. apply compile_class_quant; [simpl; lia|].
    exists c, []. rewrite app_nil_r. repeat split; auto.
Qed.

Lemma test_phone_re s : test phone_re s = true <-> phone_pattern s.
Proof.
  unfold test, phone_pattern. rewrite search_spec. split.
  - intros (pre & suf & E & H). apply phone_re_match in H.
    destruct H as (E0 & a & b & c & E' & H). cbn [endIndex remaining] in *.
    destruct pre; [| simpl in E0; lia]. simpl in E. subst.
    exists a, b, c. auto.
  - intros (a & b & c & E & H). exists [], s. split; auto.
    apply phone_re_match. split; auto. exists a, b, c. auto.
Qed.

End RegExpFacts.


(* ================================================================== *)
(** * The outcomes of the handler *)
(* ================================================================== *)

Module AppFacts.
Import Js RegExp App Spec RegExpFacts.

Lemma jsstring_eqb_eq a b : jsstring_eqb a b = true <-> a = b.
Proof.
  unfold jsstring_eqb. destruct (list_eq_dec N.eq_dec a b); split; congruence.
Qed.

Lemma strict_eq_string_spec v s : strict_eq_string v s = true <-> v = Str s.
Proof.
  destruct v; simpl; try (split; [discriminate | congruence]).
  rewrite jsstring_eqb_eq. split; congruence.
Qed.

(** The first test of the handler is the negation of rule 1. *)
Lemma presence_check b :
  negb (ToBoolean (field b "fullName")) || negb (ToBoolean (field b "dob"))
  || negb (ToBoolean (field b "gender")) || negb (ToBoolean (field b "email"))
  || negb (ToBoolean (field b "phone")) || negb (ToBoolean (field b "address"))
  || negb (ToBoolean (field b "result"))
  || negb (ToBoolean (field b "classApplying"))
  || negb (strict_eq_string (field b "agreed") (lit "on")) = false
  <-> presence_rule b.
Proof.
  unfold presence_rule, required_fields.
  rewrite <- strict_eq_string_spec.
  repeat rewrite Forall_cons_iff. rewrite Forall_nil_iff.
  repeat rewrite orb_false_iff. repeat rewrite negb_false_iff.
  tauto.
Qed.

(** A conversion throws for the objects without primitive, and then it is
    the TypeError. *)
Lemma ToString_throws v e : ToString v = Throw e <-> v = Obj None /\ e = TypeError.
Proof.
  destruct v as [| |[|]|x t|s|[s|]]; simpl; split;
    try discriminate; try (intros [H _]; discriminate H).
  - intros [= <-]. auto.
  - intros [_ ->]. reflexivity.
Qed.

Lemma new_Date_throws p v e :
  new_Date p v = Throw e <-> ToString v = Throw e.
Proof.
  destruct v as [| |[|]|[x|] t|s|[s|]]; simpl; split; intro H;
    try discriminate H; injection H as <-; reflexivity.
Qed.

Lemma age_Normal env req a :
  age env req = Normal a <->
  exists t, birthDate env req = Normal t /\ a = age_at env t.
Proof.
  unfold age. destruct (birthDate env req) as [t|e]; simpl; split.
  - intros [= <-]. now exists t.
  - intros (t' & [= <-] & ->). reflexivity.
  - discriminate.
  - intros (t' & H & _). discriminate H.
Qed.

Section Outcomes.

Variables (env : Env) (req : Request) (w : World).

Lemma submit_missing :
  ~ presence_rule (body req) ->
  submit env req w = (Normal (bad_request "Missing required fields"), w).
Proof.
  intro H. rewrite <- presence_check in H. apply not_false_is_true in H.
  unfold submit, try_catch. cbv zeta. rewrite H. reflexivity.
Qed.

Lemma submit_dob_throws e :
  presence_rule (body req) -> birthDate env req = Throw e ->
  submit env req w = (Normal server_error, logged e w).
Proof.
  intros H1 B. apply presence_check in H1.
  unfold submit, try_catch, bind, lift. cbv zeta. rewrite H1, B. reflexivity.
Qed.

Lemma submit_underage :
  presence_rule (body req) -> under_age env req ->
  submit env req w = (Normal (bad_request "Must be at least 18 years old"), w).
Proof.
  intros H1 (a & A & L). apply presence_check in H1.
  apply age_Normal in A as (t & B & ->).
  unfold submit, try_catch, bind, lift. cbv zeta. rewrite H1, B, L. reflexivity.
Qed.

Lemma submit_email_throws e :
  presence_rule (body req) -> age_rule env req ->
  ToString (field (body req) "email") = Throw e ->
  submit env req w = (Normal server_error, logged e w).
Proof.
  intros H1 (a & A & L) E. apply presence_check in H1.
  apply age_Normal in A as (t & B & ->).
  unfold submit, try_catch, bind, lift. cbv zeta. rewrite H1, B, L, E.
  reflexivity.
Qed.

Lemma submit_bad_email :
  presence_rule (body req) -> age_rule env req -> email_malformed (body req) ->
  submit env req w = (Normal (bad_request "Invalid email format"), w).
Proof.
  intros H1 (a & A & L) (s & E & N). apply presence_check in H1.
  apply age_Normal in A as (t & B & ->).
  rewrite <- test_email_re in N. apply not_true_is_false in N.
  unfold submit, try_catch, bind, lift. cbv zeta. rewrite H1, B, L, E, N.
  reflexivity.
Qed.

Lemma submit_phone_throws e :
  presence_rule (body req) -> age_rule env req -> email_rule (body req) ->
  ToString (field (body req) "phone") = Throw e ->
  submit env req w = (Normal server_error, logged e w).
Proof.
  intros H1 (a & A & L) (s & E & M) P. apply presence_check in H1.
  apply age_Normal in A as (t & B & ->). apply test_email_re in M.
  unfold submit, try_catch, bind, lift. cbv zeta. rewrite H1, B, L, E, M, P.
  reflexivity.
Qed.

Lemma submit_bad_phone :
  presence_rule (body req) -> age_rule env req -> email_rule (body req) ->
  phone_malformed (body req) ->
  submit env req w = (Normal (bad_request "Invalid phone format"), w).
Proof.
  intros H1 (a & A & L) (s & E & M) (p & P & N). apply presence_check in H1.
  apply age_Normal in A as (t & B & ->). apply test_email_re in M.
  rewrite <- test_phone_re in N. apply not_true_is_false in N.
  unfold submit, try_catch, bind, lift. cbv zeta.
  rewrite H1, B, L, E, M, P, N. reflexivity.
Qed.

(** Past validation the handler is the persist-and-notify pipeline. *)
Lemma submit_valid born :
  valid env req -> birthDate env req = Normal born ->
  submit env req w =
  try_catch
    (await save env (newStudent born req) ;;
     const mailOptions <- mailOptions env req ;;
     await sendMail env mailOptions ;;
     ret success)
    (fun err => await console_error err ;; ret server_error) w.
Proof.
  intros (H1 & (a & A & L) & (s & E & M) & (p & P & N)) B.
  apply presence_check in H1.
  apply age_Normal in A as (t & B' & ->). rewrite B in B'. injection B' as <-.
  apply test_email_re in M. apply test_phone_re in N.
  unfold submit, try_catch, bind, lift. cbv zeta.
  rewrite H1, B, L, E, M, P, N. reflexivity.
Qed.

Lemma submit_save_fails born e :
  valid env req -> birthDate env req = Normal born ->
  save_error env (newStudent born req) = Some e ->
  submit env req w =
  (Normal server_error,
   {| db := db w; outbox := outbox w;
      calls := calls w ++ [CallSave (newStudent born req); CallConsoleError e] |}).
Proof.
  intros V B S. rewrite (submit_valid V B).
  unfold try_catch, bind, save, console_error, ret, record. rewrite S.
  cbn. now rewrite <- app_assoc.
Qed.

Lemma submit_text_throws born e :
  valid env req -> birthDate env req = Normal born ->
  save_error env (newStudent born req) = None ->
  mailOptions env req = Throw e ->
  submit env req w =
  (Normal server_error,
   {| db := db w ++ [newStudent born req]; outbox := outbox w;
      calls := calls w ++ [CallSave (newStudent born req); CallConsoleError e] |}).
Proof.
  intros V B S T. rewrite (submit_valid V B).
  unfold try_catch, bind, lift, save, console_error, ret, record.
  rewrite S. cbn. rewrite T. cbn. now rewrite <- !app_assoc.
Qed.

Lemma submit_send_fails born m e :
  valid env req -> birthDate env req = Normal born ->
  save_error env (newStudent born req) = None ->
  mailOptions env req = Normal m ->
  sendMail_error env m = Some e ->
  submit env req w =
  (Normal server_error,
   {| db := db w ++ [newStudent born req]; outbox := outbox w;
      calls := calls w ++ [CallSave (newStudent born req);
                           CallSendMail m;
                           CallConsoleError e] |}).
Proof.
  intros V B S M T. rewrite (submit_valid V B).
  unfold try_catch, bind, lift, save, sendMail, console_error, ret, record.
  rewrite S. cbn. rewrite M. cbn. rewrite T. cbn. now rewrite <- !app_assoc.
Qed.

Lemma submit_succeeds born m :
  valid env req -> birthDate env req = Normal born ->
  save_error env (newStudent born req) = None ->
  mailOptions env req = Normal m ->
  sendMail_error env m = None ->
  submit env req w =
  (Normal success,
   {| db := db w ++ [newStudent born req];
      outbox := outbox w ++ [m];
      calls := calls w ++ [CallSave (newStudent born req); CallSendMail m] |}).
Proof.
  intros V B S M T. rewrite (submit_valid V B).
  unfold try_catch, bind, lift, save, sendMail, console_error, ret, record.
  rewrite S. cbn. rewrite M. cbn. rewrite T. cbn. now rewrite <- !app_assoc.
Qed.

End Outcomes.


Lemma presence_rule_dec b : presence_rule b \/ ~ presence_rule b.
Proof.
  rewrite <- presence_check.
  match goal with |- ?e = false \/ _ => destruct e end; [right | left]; congruence.
Qed.

(** What rule 2 comes to: the date throws, the age is under 18, or the rule
    is passed. *)
Lemma age_cases env req :
  (exists e, birthDate env req = Throw e) \/ under_age env req \/ age_rule env req.
Proof.
  destruct (birthDate env req) as [t|e] eqn:B; [right | left; now exists e].
  destruct (num_lt (age_at env t) 18%Q) eqn:L; [left | right];
    exists (age_at env t); split; auto; apply age_Normal; now exists t.
Qed.

Lemma email_cases b :
  (exists e, ToString (field b "email") = Throw e) \/
  email_malformed b \/ email_rule b.
Proof.
  unfold email_malformed, email_rule.
  destruct (ToString (field b "email")) as [s|e]; [right | left; now exists e].
  destruct (test email_re s) eqn:T; [right | left]; exists s; split; auto.
  - now apply test_email_re.
  - rewrite <- test_email_re. congruence.
Qed.

Lemma phone_cases b :
  (exists e, ToString (field b "phone") = Throw e) \/
  phone_malformed b \/ phone_rule b.
Proof.
  unfold phone_malformed, phone_rule.
  destruct (ToString (field b "phone")) as [s|e]; [right | left; now exists e].
  destruct (test phone_re s) eqn:T; [right | left]; exists s; split; auto.
  - now apply test_phone_re.
  - rewrite <- test_phone_re. congruence.
Qed.

Lemma age_rule_born env req :
  age_rule env req -> exists born, birthDate env req = Normal born.
Proof. intros (a & A & _). apply age_Normal in A as (t & B & _). now exists t. Qed.

Lemma under_age_not_rule env req : under_age env req -> ~ age_rule env req.
Proof. intros (a & A & L) (a' & A' & L'). congruence. Qed.

Lemma email_malformed_not_rule b : email_malformed b -> ~ email_rule b.
Proof. intros (s & E & N) (s' & E' & P). rewrite E in E'. injection E' as <-. auto. Qed.

Lemma phone_malformed_not_rule b : phone_malformed b -> ~ phone_rule b.
Proof. intros (s & E & N) (s' & E' & P). rewrite E in E'. injection E' as <-. auto. Qed.

Lemma email_pattern_dec s : email_pattern s \/ ~ email_pattern s.
Proof.
  rewrite <- test_email_re. destruct (test email_re s); [left | right]; congruence.
Qed.

Lemma phone_pattern_dec s : phone_pattern s \/ ~ phone_pattern s.
Proof.
  rewrite <- test_phone_re. destruct (test phone_re s); [left | right]; congruence.
Qed.

(** Every run of the handler: refused by a rule, stopped by a conversion
    that throws, or taken through the store and the mail. *)
Lemma submit_cases env req w :
  (~ valid env req /\
   exists reason, submit env req w = (Normal (bad_request reason), w)) \/
  (~ valid env req /\
   exists e, submit env req w = (Normal server_error, logged e w)) \/
  (valid env req /\
   exists born, birthDate env req = Normal born /\
     let s := newStudent born req in
     ((exists e, save_error env s = Some e /\
        submit env req w =
        (Normal server_error,
         {| db := db w; outbox := outbox w;
            calls := calls w ++ [CallSave s; CallConsoleError e] |})) \/
      (save_error env s = None /\
       exists e, mailOptions env req = Throw e /\
         submit env req w =
         (Normal server_error,
          {| db := db w ++ [s]; outbox := outbox w;
             calls := calls w ++ [CallSave s; CallConsoleError e] |})) \/
      (save_error env s = None /\
       exists m e, mailOptions env req = Normal m /\
         sendMail_error env m = Some e /\
         submit env req w =
         (Normal server_error,
          {| db := db w ++ [s]; outbox := outbox w;
             calls := calls w ++ [CallSave s; CallSendMail m;
                                  CallConsoleError e] |})) \/
      (save_error env s = None /\
       exists m, mailOptions env req = Normal m /\
         sendMail_error env m = None /\
         submit env req w =
         (Normal success,
          {| db := db w ++ [s]; outbox := outbox w ++ [m];
             calls := calls w ++ [CallSave s; CallSendMail m] |})))).
Proof.
  destruct (presence_rule_dec (body req)) as [P|P].
  2:{ left. split; [intros [? _]; auto |]. eexists. now apply submit_missing. }
  destruct (age_cases env req) as [[e B]|[U|R]].
  { right; left. split.
    - intros (_ & R & _). apply age_rule_born in R as [t B']. congruence.
    - exists e. now apply submit_dob_throws. }
  { left. split; [intros (_ & R & _); now apply (under_age_not_rule U) |].
    eexists. now apply submit_underage. }
  destruct (email_cases (body req)) as [[e E]|[M|E]].
  { right; left. split.
    - intros (_ & _ & (s & E' & _) & _). congruence.
    - exists e. now apply submit_email_throws. }
  { left. split; [intros (_ & _ & E & _); now apply (email_malformed_not_rule M) |].
    eexists. now apply submit_bad_email. }
  destruct (phone_cases (body req)) as [[e F]|[M|F]].
  { right; left. split.
    - intros (_ & _ & _ & (s & F' & _)). congruence.
    - exists e. now apply submit_phone_throws. }
  { left. split; [intros (_ & _ & _ & F); now apply (phone_malformed_not_rule M) |].
    eexists. now apply submit_bad_phone. }
  assert (V : valid env req) by exact (conj P (conj R (conj E F))).
  right; right. split; [exact V|].
  destruct (age_rule_born R) as [born B]. exists born. split; [exact B|].
  cbv zeta.
  destruct (save_error env (newStudent born req)) as [e|] eqn:S.
  { left. exists e. split; [reflexivity|]. exact (submit_save_fails w V B S). }
  right. destruct (mailOptions env req) as [m|e] eqn:M.
  2:{ left. split; [reflexivity|]. exists e. split; [reflexivity|].
      exact (submit_text_throws w V B S M). }
  right. destruct (sendMail_error env m) as [e|] eqn:T.
  - left. split; [reflexivity|]. exists m, e. repeat split; auto.
    exact (submit_send_fails w V B S M T).
  - right. split; [reflexivity|]. exists m. repeat split; auto.
    exact (submit_succeeds w V B S M T).
Qed.

Lemma valid_dec env req : valid env req \/ ~ valid env req.
Proof.
  destruct (submit_cases env req (Build_World [] [] []))
    as [[N _]|[[N _]|[V _]]]; auto.
Qed.

(** What a fully valid submission is answered. *)
Lemma submit_valid_response env req w :
  valid env req ->
  fst (submit env req w) = Normal server_error \/
  fst (submit env req w) = Normal success.
Proof.
  intro V.
  destruct (submit_cases env req w)
    as [[N _]|[[N _]|[_ (born & B & [(e & _ & E)|[(_ & e & _ & E)|
         [(_ & m & e & _ & _ & E)|(_ & m & _ & _ & E)]]])]]];
    try contradiction; rewrite E; auto.
Qed.

Lemma Qlt_bool_iff x y : Qlt_bool x y = true <-> (x < y)%Q.
Proof.
  unfold Qlt_bool. rewrite negb_true_iff. split.
  - intro H. apply Qnot_le_lt. intro L. apply Qle_bool_iff in L. congruence.
  - intro H. apply not_true_is_false. intro L. apply Qle_bool_iff in L.
    now apply Qlt_not_le in H.
Qed.


(** Under 18 years means fewer than 568036800000 ms elapsed. *)
Lemma under_18_ms d :
  num_lt (num_div (Some d) ms_per_year) 18%Q = (d <? 568036800000)%Z.
Proof.
  simpl. destruct (d <? 568036800000)%Z eqn:E.
  - apply Qlt_bool_iff. apply Z.ltb_lt in E.
    unfold Qlt, Qdiv, Qmult, Qinv, inject_Z, ms_per_year. simpl. lia.
  - apply not_true_is_false. intro H. apply Qlt_bool_iff in H.
    apply Z.ltb_ge in E.
    unfold Qlt, Qdiv, Qmult, Qinv, inject_Z, ms_per_year in H. simpl in H. lia.
Qed.

Lemma startsWith_spec p : forall s,
  startsWith s p = true <-> exists rest, s = p ++ rest.
Proof.
  induction p as [|c p IH]; intro s; simpl.
  - split; [intros _; now exists s | reflexivity].
  - destruct s as [|d s].
    + split; [discriminate | intros (rest & E); discriminate E].
    + rewrite andb_true_iff, N.eqb_eq, IH. split.
      * intros [-> (rest & ->)]. now exists rest.
      * intros (rest & E). inversion E; subst. split; [reflexivity | now exists rest].
Qed.

Lemma fileFilter_image f :
  image_type (mimetype f) -> fileFilter f = (None, true).
Proof.
  intro H. apply startsWith_spec in H. unfold fileFilter. now rewrite H.
Qed.

Lemma fileFilter_other f :
  ~ image_type (mimetype f) ->
  fileFilter f = (Some "Only images are allowed"%string, false).
Proof.
  intro H. unfold image_type in H. rewrite <- startsWith_spec in H.
  apply not_true_is_false in H. unfold fileFilter. now rewrite H.
Qed.

(** The handler always answers: its [catch] takes every error. *)
Lemma submit_responds env req w :
  exists r w', submit env req w = (Normal r, w').
Proof.
  destruct (submit_cases env req w)
    as [[_ [? E]]|[[_ [? E]]|[_ (born & B & [(e & _ & E)|[(_ & e & _ & E)|
         [(_ & m & e & _ & _ & E)|(_ & m & _ & _ & E)]]])]]];
    rewrite E; eauto.
Qed.

(** The documents in the store after the handler has run. *)
Lemma submit_db env req w :
  db (snd (submit env req w)) = db w \/
  exists born, birthDate env req = Normal born /\
    db (snd (submit env req w)) = db w ++ [newStudent born req].
Proof.
  destruct (submit_cases env req w)
    as [[_ [? E]]|[[_ [? E]]|[_ (born & B & [(e & _ & E)|[(_ & e & _ & E)|
         [(_ & m & e & _ & _ & E)|(_ & m & _ & _ & E)]]])]]];
    rewrite E; cbn [snd db logged]; auto; right; exists born; auto.
Qed.

End AppFacts.

(* ================================================================== *)
(** * The properties of the specification *)
(* ================================================================== *)

Import Js RegExp App Spec RegExpFacts AppFacts.

(** Discharges a validation rule on a concrete submission. *)
Ltac rule_holds :=
  lazymatch goal with
  | |- presence_rule _ => split; [repeat constructor | reflexivity]
  | |- age_rule _ _ => eexists; split; [reflexivity | vm_compute; reflexivity]
  | |- under_age _ _ => eexists; split; [reflexivity | vm_compute; reflexivity]
  | |- email_rule _ =>
      eexists; split; [reflexivity | apply test_email_re; vm_compute; reflexivity]
  | |- phone_rule _ =>
      eexists; split; [reflexivity | apply test_phone_re; vm_compute; reflexivity]
  | |- email_malformed _ =>
      eexists; split;
      [reflexivity
      | let H := fresh in
        intro H; apply test_email_re in H; vm_compute in H; discriminate H]
  | |- phone_malformed _ =>
      eexists; split;
      [reflexivity
      | let H := fresh in
        intro H; apply test_phone_re in H; vm_compute in H; discriminate H]
  | |- ~ email_rule _ =>
      let s := fresh in let E := fresh in
      intros (s & E & _); discriminate E
  | |- ~ phone_rule _ =>
      let s := fresh in let E := fresh in
      intros (s & E & _); discriminate E
  | |- valid _ _ =>
      split; [rule_holds | split; [rule_holds | split; rule_holds]]
  end.

(** C1.  For a request whose date of birth, email and phone can be converted
    (to a date, to a string), as those of every form submission can, the
    handler applies the rules in the order presence, age, email, phone and
    answers with the first one that fails: a 400 carrying that rule's reason
    alone, the world left as it was.  Where the conversion a rule needs
    throws, the handler's [catch] answers 500 instead, logs the error, and
    again stores and sends nothing. *)
Theorem validation_first_failure env req w :
  (~ presence_rule (body req) ->
   submit env req w = (Normal (bad_request "Missing required fields"), w)) /\
  (presence_rule (body req) -> under_age env req ->
   submit env req w =
   (Normal (bad_request "Must be at least 18 years old"), w)) /\
  (presence_rule (body req) -> age_rule env req ->
   email_malformed (body req) ->
   submit env req w = (Normal (bad_request "Invalid email format"), w)) /\
  (presence_rule (body req) -> age_rule env req -> email_rule (body req) ->
   phone_malformed (body req) ->
   submit env req w = (Normal (bad_request "Invalid phone format"), w)) /\
  (forall e,
     presence_rule (body req) ->
     birthDate env req = Throw e \/
     age_rule env req /\
       (ToString (field (body req) "email") = Throw e \/
        email_rule (body req) /\
          ToString (field (body req) "phone") = Throw e) ->
     submit env req w = (Normal server_error, logged e w)).
Proof.
  repeat split.
  - apply submit_missing.
  - apply submit_underage.
  - apply submit_bad_email.
  - apply submit_bad_phone.
  - intros e P [B|[R [E|[E F]]]].
    + now apply submit_dob_throws.
    + now apply submit_email_throws.
    + now apply submit_phone_throws.
Qed.

(** A submission that is under age, has a bad email and a bad phone is
    answered with the age reason; one with a bad email and a bad phone with
    the email reason. *)
Lemma validation_first_failure_witness :
  submit Example.env Example.all_wrong Example.world =
  (Normal (bad_request "Must be at least 18 years old"), Example.world) /\
  submit Example.env Example.bad_email_and_phone Example.world =
  (Normal (bad_request "Invalid email format"), Example.world).
Proof.
  split.
  - apply (proj1 (proj2 (validation_first_failure Example.env
                           Example.all_wrong Example.world)));
      rule_holds.
  - apply (proj1 (proj2 (proj2
             (validation_first_failure Example.env Example.bad_email_and_phone
                Example.world))));
      rule_holds.
Defined.

(** The example sent as JSON with the phone {"toString": 1}: the presence,
    age and email rules are passed, the phone rule is not, and yet the
    answer is not the 400 of that rule but 500. *)
Lemma validation_first_failure_counterexample :
  presence_rule (body Example.object_phone) /\
  age_rule Example.env Example.object_phone /\
  email_rule (body Example.object_phone) /\
  ~ phone_rule (body Example.object_phone) /\
  submit Example.env Example.object_phone Example.world <>
  (Normal (bad_request "Invalid phone format"), Example.world) /\
  submit Example.env Example.object_phone Example.world =
  (Normal server_error, logged TypeError Example.world).
Proof.
  split; [rule_holds|]. split; [rule_holds|]. split; [rule_holds|].
  split; [rule_holds|]. split.
  - intro H. vm_compute in H. discriminate H.
  - reflexivity.
Qed.

(** C2.  When a fully valid submission cannot be stored ([save] throws), the
    answer is 500 {error: "Server error"}; the only calls made are the failed
    [save] and the logging of the error, so [sendMail] is never reached, and
    neither the store nor the outbox changes. *)
Theorem persistence_failure env req w born e :
  valid env req ->
  birthDate env req = Normal born ->
  save_error env (newStudent born req) = Some e ->
  submit env req w =
  (Normal server_error,
   {| db := db w; outbox := outbox w;
      calls := calls w ++ [CallSave (newStudent born req); CallConsoleError e] |}).
Proof. intros V B S. exact (submit_save_fails w V B S). Qed.

Lemma persistence_failure_witness :
  submit Example.env_store_down (Example.request Example.submission)
    Example.world =
  (Normal server_error,
   {| db := []; outbox := [];
      calls := [CallSave (newStudent (Some 946684800000%Z)
                            (Example.request Example.submission));
                CallConsoleError "MongoNetworkError"%string] |}).
Proof.
  apply (@persistence_failure Example.env_store_down
           (Example.request Example.submission) Example.world
           (Some 946684800000%Z) "MongoNetworkError"%string).
  - rule_holds.
  - reflexivity.
  - reflexivity.
Defined.

(** C3.  When a fully valid submission is stored but the mail cannot be sent
    ([sendMail] throws), the answer is still 500 {error: "Server error"},
    although the document is in the store. *)
Theorem notification_failure env req w born m e :
  valid env req ->
  birthDate env req = Normal born ->
  save_error env (newStudent born req) = None ->
  mailOptions env req = Normal m ->
  sendMail_error env m = Some e ->
  submit env req w =
  (Normal server_error,
   {| db := db w ++ [newStudent born req]; outbox := outbox w;
      calls := calls w ++ [CallSave (newStudent born req);
                           CallSendMail m;
                           CallConsoleError e] |}).
Proof. intros V B S M T. exact (submit_send_fails w V B S M T). Qed.

Lemma notification_failure_witness :
  fst (submit Example.env_mail_down (Example.request Example.submission)
         Example.world) = Normal server_error /\
  db (snd (submit Example.env_mail_down (Example.request Example.submission)
             Example.world)) =
  [newStudent (Some 946684800000%Z) (Example.request Example.submission)].
Proof.
  assert (V : valid Example.env_mail_down (Example.request Example.submission))
    by rule_holds.
  destruct (mailOptions Example.env_mail_down
              (Example.request Example.submission)) as [m|e] eqn:M;
    [| discriminate M].
  rewrite (@notification_failure Example.env_mail_down
             (Example.request Example.submission) Example.world
             (Some 946684800000%Z) m "EAUTH"%string V eq_refl eq_refl M eq_refl).
  split; reflexivity.
Defined.



(** C5.  For a request that passes the presence and age checks and whose
    email has a string form, the answer is 400 {error: "Invalid email
    format"} exactly when that string does not match the pattern: a
    non-whitespace run, an '@', a non-whitespace run, a '.', a
    non-whitespace run.  An email whose conversion to a string throws is
    answered 500 {error: "Server error"} by the [catch], with the error
    logged and nothing else done. *)
Theorem email_check env req w :
  presence_rule (body req) -> age_rule env req ->
  (forall s, ToString (field (body req) "email") = Normal s ->
     (submit env req w = (Normal (bad_request "Invalid email format"), w) <->
      ~ email_pattern s)) /\
  (forall e, ToString (field (body req) "email") = Throw e ->
     submit env req w = (Normal server_error, logged e w)).
Proof.
  intros P R. split.
  - intros s S. split.
    + intros H E'.
      assert (E : email_rule (body req)) by (exists s; auto).
      destruct (phone_cases (body req)) as [[e F]|[F|F]].
      * rewrite (submit_phone_throws w P R E F) in H. discriminate.
      * rewrite submit_bad_phone in H; auto. discriminate.
      * assert (V : valid env req) by exact (conj P (conj R (conj E F))).
        destruct (submit_valid_response w V) as [H'|H'];
          rewrite H in H'; discriminate.
    + intro E. apply submit_bad_email; auto. exists s; auto.
  - intros e E. now apply submit_email_throws.
Qed.

Lemma email_check_witness :
  submit Example.env Example.bad_email Example.world =
  (Normal (bad_request "Invalid email format"), Example.world).
Proof.
  assert (P : presence_rule (body Example.bad_email)) by rule_holds.
  assert (R : age_rule Example.env Example.bad_email) by rule_holds.
  apply (proj2 (proj1 (@email_check Example.env Example.bad_email
                         Example.world P R) (lit "a.b@c") eq_refl)).
  intro H. apply test_email_re in H. vm_compute in H. discriminate H.
Defined.

(** The example sent as JSON with the email {"toString": 1}: it passes the
    presence and age checks, it does not match the pattern (it has no string
    form at all), and the answer is not the 400 of the email rule. *)
Lemma email_check_counterexample :
  presence_rule (body Example.object_email) /\
  age_rule Example.env Example.object_email /\
  ~ email_rule (body Example.object_email) /\
  submit Example.env Example.object_email Example.world <>
  (Normal (bad_request "Invalid email format"), Example.world).
Proof.
  split; [rule_holds|]. split; [rule_holds|]. split; [rule_holds|].
  intro H. vm_compute in H. discriminate H.
Qed.

(** C6.  For a request that passes the presence, age and email checks and
    whose phone has a string form, the phone is accepted exactly when that
    whole string is three digits, a hyphen, three digits, a hyphen and four
    digits; any other is answered with 400 {error: "Invalid phone format"}.
    So is the example submission with the phone "1234567890", whenever the
    engine reads its date of birth as 2000-01-01 and 18 years have passed
    since.  A phone whose conversion to a string throws is answered 500
    {error: "Server error"} by the [catch], with the error logged and
    nothing else done. *)
Theorem phone_check :
  (forall env req w,
     presence_rule (body req) -> age_rule env req -> email_rule (body req) ->
     (forall s, ToString (field (body req) "phone") = Normal s ->
        (submit env req w = (Normal (bad_request "Invalid phone format"), w) <->
         ~ phone_pattern s) /\
        (valid env req <-> phone_pattern s)) /\
     (forall e, ToString (field (body req) "phone") = Throw e ->
        submit env req w = (Normal server_error, logged e w))) /\
  (forall env w,
     Date_parse env (lit "2000-01-01") = Some 946684800000%Z ->
     (946684800000 + 568036800000 <= Date_now env)%Z ->
     submit env Example.bad_phone w =
     (Normal (bad_request "Invalid phone format"), w)).
Proof.
  split.
  - intros env req w P R E. split.
    + intros s S. split; split.
      * intros H F'.
        assert (F : phone_rule (body req)) by (exists s; auto).
        assert (V : valid env req) by exact (conj P (conj R (conj E F))).
        destruct (submit_valid_response w V) as [H'|H'];
          rewrite H in H'; discriminate.
      * intro F. apply submit_bad_phone; auto. exists s; auto.
      * intros (_ & _ & _ & (s' & S' & F)). congruence.
      * intro F. refine (conj P (conj R (conj E _))). exists s; auto.
    + intros e F. now apply submit_phone_throws.
  - intros env w D N. apply submit_bad_phone.
    + split; [repeat constructor | reflexivity].
    + eexists. split.
      * unfold age, birthDate.
        change (field _ "dob") with (Str (lit "2000-01-01")).
        cbn [new_Date]. unfold parse_date. rewrite D.
        change (TimeClip 946684800000) with (Some 946684800000%Z).
        reflexivity.
      * unfold age_at. cbn [date_sub]. rewrite under_18_ms.
        apply Z.ltb_ge. lia.
    + eexists. split; [reflexivity | apply test_email_re; vm_compute; reflexivity].
    + eexists. split; [reflexivity|].
      intro H. apply test_phone_re in H. vm_compute in H. discriminate H.
Qed.

Lemma phone_check_witness :
  submit Example.env Example.bad_phone Example.world =
  (Normal (bad_request "Invalid phone format"), Example.world).
Proof.
  apply (proj2 phone_check Example.env Example.world).
  - reflexivity.
  - vm_compute. discriminate.
Defined.

(** The example sent as JSON with the phone {"toString": 1}: it passes the
    presence, age and email checks, it is not of the form DDD-DDD-DDDD, and
    the answer is not the 400 of the phone rule. *)
Lemma phone_check_counterexample :
  presence_rule (body Example.object_phone) /\
  age_rule Example.env Example.object_phone /\
  email_rule (body Example.object_phone) /\
  ~ phone_rule (body Example.object_phone) /\
  submit Example.env Example.object_phone Example.world <>
  (Normal (bad_request "Invalid phone format"), Example.world).
Proof.
  split; [rule_holds|]. split; [rule_holds|]. split; [rule_holds|].
  split; [rule_holds|].
  intro H. vm_compute in H. discriminate H.
Qed.

(** C7.  A fully valid submission without photo and without previous
    school, stored and notified without error: the document stored has no
    photo, the mail says "Previous School: N/A" and "Photo: None" and has no
    attachment, and the answer is 200 {message: "Submission successful"}. *)
Theorem submission_without_photo env req w born m :
  valid env req ->
  file req = None ->
  field (body req) "previousSchool" = Undefined ->
  birthDate env req = Normal born ->
  save_error env (newStudent born req) = None ->
  mailOptions env req = Normal m ->
  sendMail_error env m = None ->
  let b := body req in
  let s := newStudent born req in
  submit env req w =
  (Normal {| status := 200%Z; json := message "Submission successful" |},
   {| db := db w ++ [s]; outbox := outbox w ++ [m];
      calls := calls w ++ [CallSave s; CallSendMail m] |}) /\
  photo s = None /\
  attachments m = [] /\
  text m =
    nl ++ lit "        New submission:" ++
    nl ++ lit "        Full Name: " ++ text_of (field b "fullName") ++
    nl ++ lit "        DOB: " ++ text_of (field b "dob") ++
    nl ++ lit "        Gender: " ++ text_of (field b "gender") ++
    nl ++ lit "        Email: " ++ text_of (field b "email") ++
    nl ++ lit "        Phone: " ++ text_of (field b "phone") ++
    nl ++ lit "        Address: " ++ text_of (field b "address") ++
    nl ++ lit "        Previous School: N/A" ++
    nl ++ lit "        Result: " ++ text_of (field b "result") ++
    nl ++ lit "        Class Applying: " ++ text_of (field b "classApplying") ++
    nl ++ lit "        Photo: None" ++
    nl ++ lit "      ".
Proof.
  intros V Hf Hp B S M T b s. split; [exact (submit_succeeds w V B S M T)|].
  subst b s. unfold newStudent. cbn [photo]. rewrite Hf.
  split; [reflexivity|].
  unfold mailOptions, mail_text in M. rewrite Hf, Hp in M.
  unfold text_of.
  destruct (ToString (field (body req) "fullName")) as [s1|]; [|discriminate M].
  destruct (ToString (field (body req) "dob")) as [s2|]; [|discriminate M].
  destruct (ToString (field (body req) "gender")) as [s3|]; [|discriminate M].
  destruct (ToString (field (body req) "email")) as [s4|]; [|discriminate M].
  destruct (ToString (field (body req) "phone")) as [s5|]; [|discriminate M].
  destruct (ToString (field (body req) "address")) as [s6|]; [|discriminate M].
  destruct (ToString (field (body req) "result")) as [s7|]; [|discriminate M].
  destruct (ToString (field (body req) "classApplying")) as [s8|];
    [|discriminate M].
  cbn in M. injection M as <-. cbn [attachments text].
  split; [reflexivity|].
  repeat rewrite <- app_assoc. reflexivity.
Qed.

(** The example of the specification: no file, answered 200. *)
Lemma submission_without_photo_witness :
  fst (submit Example.env (Example.request Example.submission) Example.world)
  = Normal success /\
  exists m,
    mailOptions Example.env (Example.request Example.submission) = Normal m /\
    outbox (snd (submit Example.env (Example.request Example.submission)
                   Example.world)) = [m].
Proof.
  assert (V : valid Example.env (Example.request Example.submission))
    by rule_holds.
  destruct (mailOptions Example.env (Example.request Example.submission))
    as [m|e] eqn:M; [| discriminate M].
  destruct (@submission_without_photo Example.env
              (Example.request Example.submission) Example.world
              (Some 946684800000%Z) m
              V eq_refl eq_refl eq_refl eq_refl M eq_refl) as [H _].
  rewrite H. split; [reflexivity|]. exists m. split; reflexivity.
Defined.

(** C8.  A file whose MIME type does not begin with "image/" is refused by
    the filter with the error "Only images are allowed"; the request is then
    handed to the error handler without the submit handler running, so the
    world is as it was and no document is created.  A file whose MIME type
    begins with "image/" is accepted and reaches the handler as [req.file]. *)
Theorem upload_filter f :
  (~ image_type (mimetype f) ->
   fileFilter f = (Some "Only images are allowed"%string, false) /\
   forall env b w,
     post_submit env {| fields := b; upload := Some f |} w =
     (NextError "Only images are allowed"%string, w)) /\
  (image_type (mimetype f) ->
   fileFilter f = (None, true) /\
   forall b,
     upload_single {| fields := b; upload := Some f |} =
     inr {| body := b; file := Some f |}).
Proof.
  split; intro H.
  - pose proof (@fileFilter_other f H) as E. split; [exact E|].
    intros env b w. unfold post_submit, upload_single. cbn [upload]. now rewrite E.
  - pose proof (@fileFilter_image f H) as E. split; [exact E|].
    intro b. unfold upload_single. cbn [upload fields]. now rewrite E.
Qed.

Lemma upload_filter_witness :
  post_submit Example.env
    {| fields := Example.submission; upload := Some Example.text_file |}
    Example.world =
  (NextError "Only images are allowed"%string, Example.world).
Proof.
  apply (proj1 (upload_filter Example.text_file)).
  intros [rest E]. vm_compute in E. discriminate E.
Defined.

(** C9.  When the date of birth is a non-empty string that the engine does
    not read as a date, the age is NaN, [age < 18] is false and the age rule
    does not reject: the answer is not the age reason, and a request that
    passed the presence check goes on to the email and phone checks. *)
Theorem unparsable_dob env req w s :
  field (body req) "dob" = Str s ->
  s <> [] ->
  Date_parse env s = None ->
  age env req = Normal None /\
  num_lt None 18%Q = false /\
  age_rule env req /\
  fst (submit env req w) <> Normal (bad_request "Must be at least 18 years old") /\
  (presence_rule (body req) ->
   (email_malformed (body req) ->
    submit env req w = (Normal (bad_request "Invalid email format"), w)) /\
   (email_rule (body req) -> phone_malformed (body req) ->
    submit env req w = (Normal (bad_request "Invalid phone format"), w)) /\
   (email_rule (body req) -> phone_rule (body req) -> valid env req)).
Proof.
  intros D _ Hparse.
  assert (A : age env req = Normal None).
  { unfold age, birthDate. rewrite D. simpl. unfold parse_date.
    now rewrite Hparse. }
  assert (R : age_rule env req) by (exists None; auto).
  split; [exact A|]. split; [reflexivity|]. split; [exact R|]. split.
  - destruct (submit_cases env req w)
      as [[N [reason E]]|[[_ [e E]]|[V _]]].
    + destruct (presence_rule_dec (body req)) as [P|P];
        [| rewrite submit_missing; auto; discriminate].
      destruct (email_cases (body req)) as [[e X]|[X|X]].
      * rewrite (submit_email_throws w P R X). discriminate.
      * rewrite submit_bad_email; auto. discriminate.
      * destruct (phone_cases (body req)) as [[e F]|[F|F]].
        -- rewrite (submit_phone_throws w P R X F). discriminate.
        -- rewrite submit_bad_phone; auto. discriminate.
        -- exfalso. apply N. exact (conj P (conj R (conj X F))).
    + rewrite E. discriminate.
    + destruct (submit_valid_response w V) as [H|H]; rewrite H; discriminate.
  - intro P. split; [| split].
    + intro E. now apply submit_bad_email.
    + intros E F. now apply submit_bad_phone.
    + intros E F. exact (conj P (conj R (conj E F))).
Qed.

(** "not-a-date" with a bad phone: the answer is the phone reason. *)
Lemma unparsable_dob_witness :
  submit Example.env Example.bad_date_and_phone Example.world =
  (Normal (bad_request "Invalid phone format"), Example.world).
Proof.
  assert (N : lit "not-a-date" <> []) by discriminate.
  destruct (@unparsable_dob Example.env Example.bad_date_and_phone
              Example.world (lit "not-a-date") eq_refl N eq_refl)
    as (_ & _ & _ & _ & H).
  apply H; rule_holds.
Defined.

(** C10.  The agreement flag counts as affirmed only when [agreed] is the
    string "on": any other value is answered with 400 {error: "Missing
    required fields"}.  Every document the handler adds to the store is the
    one it built, whose [agreed] is the boolean true. *)
Theorem agreement_flag env req w :
  (field (body req) "agreed" <> Str (lit "on") ->
   submit env req w = (Normal (bad_request "Missing required fields"), w)) /\
  (forall s, In s (db (snd (submit env req w))) ->
             In s (db w) \/
             ((exists born, birthDate env req = Normal born /\
                            s = newStudent born req) /\
              agreed s = true)).
Proof.
  split.
  - intro H. apply submit_missing. intros [_ A]. contradiction.
  - intros s Hin. destruct (submit_db env req w) as [E|(born & B & E)];
      rewrite E in Hin.
    + now left.
    + apply in_app_or in Hin as [Hin|[<-|[]]]; [now left | right].
      split; [exists born; auto | reflexivity].
Qed.

(** "true", "yes", "1", the boolean true, the number 1 and an object are
    all refused. *)
Lemma agreement_flag_witness :
  Forall (fun v =>
            submit Example.env
              (Example.request (Example.with_field "agreed" v Example.submission))
              Example.world =
            (Normal (bad_request "Missing required fields"), Example.world))
         [Str (lit "true"); Str (lit "yes"); Str (lit "1"); Bool true;
          Num (Some 1%Q) (lit "1"); Obj (Some (lit "[object Object]"))].
Proof.
  repeat (apply Forall_cons;
    [apply (proj1 (agreement_flag Example.env (Example.request _) Example.world));
     intro E; vm_compute in E; discriminate E |]).
  apply Forall_nil.
Defined.

(* ================================================================== *)
(** * Further facts about the handler, the route and the storage *)
(* ================================================================== *)

Module StorageFacts.
Import Js RegExp Storage.

Lemma lit_inj a b : lit a = lit b -> a = b.
Proof.
  revert b. induction a as [|x a IH]; intros [|y b] H; try discriminate.
  - reflexivity.
  - unfold lit in H. simpl in H. inversion H as [[Hx Hr]].
    f_equal.
    + rewrite <- (ascii_N_embedding x), <- (ascii_N_embedding y). now rewrite Hx.
    + now apply IH.
Qed.

Lemma decimal_inj n m : decimal n = decimal m -> n = m.
Proof.
  unfold decimal. intro H. apply lit_inj in H.
  apply DecimalZ.to_int_inj.
  assert (E : NilEmpty.int_of_string (NilEmpty.string_of_int (Z.to_int n)) =
              NilEmpty.int_of_string (NilEmpty.string_of_int (Z.to_int m)))
    by now rewrite H.
  rewrite !NilEmpty.isi in E. congruence.
Qed.

Lemma uint_chars d :
  Forall numeral_char (lit (NilEmpty.string_of_uint d)).
Proof.
  induction d; simpl; constructor; auto; left; reflexivity.
Qed.

Lemma decimal_chars n : Forall numeral_char (decimal n).
Proof.
  unfold decimal. destruct (Z.to_int n) as [d|d]; simpl.
  - apply uint_chars.
  - constructor; [right; reflexivity | apply uint_chars].
Qed.

Lemma dot_not_numeral : ~ numeral_char (chr ".").
Proof. intros [H|H]; discriminate H. Qed.

(** Where the numeral stops: at the end or at a '.'. *)
Lemma numeral_split : forall l1 l2 e1 e2,
  Forall numeral_char l1 -> Forall numeral_char l2 ->
  extension e1 -> extension e2 ->
  l1 ++ e1 = l2 ++ e2 -> l1 = l2 /\ e1 = e2.
Proof.
  induction l1 as [|a l1 IH]; intros [|b l2] e1 e2 F1 F2 X1 X2 H; simpl in H.
  - auto.
  - exfalso. pose proof (Forall_inv F2) as Hb.
    destruct X1 as [E|[r E]]; rewrite E in H; [discriminate H|].
    injection H as Hb' _. rewrite <- Hb' in Hb. now apply dot_not_numeral.
  - exfalso. pose proof (Forall_inv F1) as Ha.
    destruct X2 as [E|[r E]]; rewrite E in H; [discriminate H|].
    injection H as Ha' _. rewrite Ha' in Ha. now apply dot_not_numeral.
  - injection H as -> H.
    destruct (IH l2 e1 e2 (Forall_inv_tail F1) (Forall_inv_tail F2) X1 X2 H)
      as [-> ->]; auto.
Qed.

End StorageFacts.

Module HandlerFacts.
Import Js RegExp App Spec RegExpFacts AppFacts.

Lemma app_one_neq A (l : list A) x : l ++ [x] <> l.
Proof.
  intro H. apply (f_equal (@List.length A)) in H.
  rewrite length_app in H. simpl in H. lia.
Qed.

(** A valid submission that the store accepts is stored, whatever becomes
    of the mail. *)
Lemma submit_stores env req w born :
  valid env req -> birthDate env req = Normal born ->
  save_error env (newStudent born req) = None ->
  db (snd (submit env req w)) = db w ++ [newStudent born req].
Proof.
  intros V B S. destruct (mailOptions env req) as [m|e] eqn:M.
  - destruct (sendMail_error env m) as [e|] eqn:T.
    + now rewrite (submit_send_fails w V B S M T).
    + now rewrite (submit_succeeds w V B S M T).
  - now rewrite (submit_text_throws w V B S M).
Qed.

End HandlerFacts.

Module FrameFacts.
Import Js RegExp App Spec RegExpFacts AppFacts HandlerFacts Frame.

Lemma same_for_validation_sym b b' :
  same_for_validation b b' -> same_for_validation b' b.
Proof.
  intros [A B]. split; intros name H; symmetry; auto.
Qed.

Lemma presence_agree b b' :
  same_for_validation b b' -> presence_rule b -> presence_rule b'.
Proof.
  intros [A B] [F G]. unfold required_fields in *.
  repeat rewrite Forall_cons_iff in F.
  destruct F as (F1 & F2 & F3 & F4 & F5 & F6 & F7 & F8 & _).
  split.
  - repeat constructor.
    + rewrite <- A; [exact F1 | simpl; tauto].
    + rewrite <- B; [exact F2 | simpl; tauto].
    + rewrite <- A; [exact F3 | simpl; tauto].
    + rewrite <- B; [exact F4 | simpl; tauto].
    + rewrite <- B; [exact F5 | simpl; tauto].
    + rewrite <- A; [exact F6 | simpl; tauto].
    + rewrite <- A; [exact F7 | simpl; tauto].
    + rewrite <- A; [exact F8 | simpl; tauto].
  - rewrite <- B; [exact G | simpl; tauto].
Qed.

Lemma birthDate_agree env b b' f f' :
  same_for_validation b b' ->
  birthDate env {| body := b; file := f |} =
  birthDate env {| body := b'; file := f' |}.
Proof.
  intros [_ B]. unfold birthDate. cbn [body].
  rewrite (B "dob"%string); [reflexivity | simpl; tauto].
Qed.

Lemma age_agree env b b' f f' :
  same_for_validation b b' ->
  age env {| body := b; file := f |} = age env {| body := b'; file := f' |}.
Proof.
  intro A. unfold age. now rewrite (@birthDate_agree env b b' f f' A).
Qed.

Lemma valid_agree env b b' f f' :
  same_for_validation b b' ->
  valid env {| body := b; file := f |} ->
  valid env {| body := b'; file := f' |}.
Proof.
  intros A (P & R & E & F). unfold valid. cbn [body] in *.
  split; [| split; [| split]].
  - exact (@presence_agree b b' A P).
  - unfold age_rule in *. now rewrite <- (@age_agree env b b' f f' A).
  - unfold email_rule in *. destruct A as [_ B].
    rewrite <- (B "email"%string); [exact E | simpl; tauto].
  - unfold phone_rule in *. destruct A as [_ B].
    rewrite <- (B "phone"%string); [exact F | simpl; tauto].
Qed.

(** Before it stores anything the handler reads the body through
    validation alone. *)
Lemma submit_invalid_agree env b b' f f' w :
  same_for_validation b b' ->
  ~ valid env {| body := b; file := f |} ->
  submit env {| body := b; file := f |} w =
  submit env {| body := b'; file := f' |} w.
Proof.
  intros A N. pose proof (same_for_validation_sym A) as A'.
  set (req := {| body := b; file := f |}) in *.
  set (req' := {| body := b'; file := f' |}) in *.
  assert (M : field b "email" = field b' "email")
    by (apply (proj2 A); simpl; tauto).
  assert (H : field b "phone" = field b' "phone")
    by (apply (proj2 A); simpl; tauto).
  assert (BB : birthDate env req = birthDate env req')
    by apply (@birthDate_agree env b b' f f' A).
  assert (AA : age env req = age env req')
    by apply (@age_agree env b b' f f' A).
  assert (PP : presence_rule b -> presence_rule b')
    by apply (@presence_agree b b' A).
  assert (PP' : presence_rule b' -> presence_rule b)
    by apply (@presence_agree b' b A').
  assert (RR : age_rule env req -> age_rule env req')
    by (unfold age_rule; now rewrite AA).
  assert (UU : under_age env req -> under_age env req')
    by (unfold under_age; now rewrite AA).
  assert (EE : email_rule b -> email_rule b') by (unfold email_rule; now rewrite M).
  assert (EM : email_malformed b -> email_malformed b')
    by (unfold email_malformed; now rewrite M).
  assert (FM : phone_malformed b -> phone_malformed b')
    by (unfold phone_malformed; now rewrite H).
  destruct (presence_rule_dec b) as [P|P].
  2:{ rewrite !submit_missing; auto. }
  destruct (age_cases env req) as [[e B]|[U|R]].
  { rewrite (@submit_dob_throws env req w e P B).
    rewrite BB in B. now rewrite (@submit_dob_throws env req' w e (PP P) B). }
  { rewrite !submit_underage; auto. }
  destruct (email_cases b) as [[e X]|[X|X]].
  { rewrite (@submit_email_throws env req w e P R X).
    cbn [body req] in X. rewrite M in X.
    now rewrite (@submit_email_throws env req' w e (PP P) (RR R) X). }
  { rewrite !submit_bad_email; auto. }
  destruct (phone_cases b) as [[e Y]|[Y|Y]].
  { rewrite (@submit_phone_throws env req w e P R X Y).
    cbn [body req] in Y. rewrite H in Y.
    now rewrite (@submit_phone_throws env req' w e (PP P) (RR R) (EE X) Y). }
  { rewrite !submit_bad_phone; auto. }
  exfalso. apply N. exact (conj P (conj R (conj X Y))).
Qed.

End FrameFacts.

Import Storage StorageFacts HandlerFacts Frame FrameFacts.

(* ================================================================== *)
(** * Further properties *)
(* ================================================================== *)

(** X1.  Every run of the handler has one of six shapes.  The submission
    is not valid and the answer is a 400 with nothing called; or it is not
    valid because a conversion throws during validation, and the answer is
    500 with the error logged and nothing else called.  Otherwise it is
    valid and [save] is called: [save] throws, the error is logged, 500; or
    the document is stored and the mail text cannot be built, the error is
    logged, 500; or [sendMail] throws, the error is logged, 500; or both
    succeed, 200.  So [save] and [sendMail] are each called at most once,
    [sendMail] only after [save] has succeeded, and [console.error] only
    with the error thrown. *)
Theorem handler_runs env req w :
  (~ valid env req /\
   exists reason, submit env req w = (Normal (bad_request reason), w)) \/
  (~ valid env req /\
   exists e, submit env req w = (Normal server_error, logged e w)) \/
  (valid env req /\
   exists born, birthDate env req = Normal born /\
     let s := newStudent born req in
     ((exists e, save_error env s = Some e /\
        submit env req w =
        (Normal server_error,
         {| db := db w; outbox := outbox w;
            calls := calls w ++ [CallSave s; CallConsoleError e] |})) \/
      (save_error env s = None /\
       exists e, mailOptions env req = Throw e /\
         submit env req w =
         (Normal server_error,
          {| db := db w ++ [s]; outbox := outbox w;
             calls := calls w ++ [CallSave s; CallConsoleError e] |})) \/
      (save_error env s = None /\
       exists m e, mailOptions env req = Normal m /\
         sendMail_error env m = Some e /\
         submit env req w =
         (Normal server_error,
          {| db := db w ++ [s]; outbox := outbox w;
             calls := calls w ++ [CallSave s; CallSendMail m;
                                  CallConsoleError e] |})) \/
      (save_error env s = None /\
       exists m, mailOptions env req = Normal m /\
         sendMail_error env m = None /\
         submit env req w =
         (Normal success,
          {| db := db w ++ [s]; outbox := outbox w ++ [m];
             calls := calls w ++ [CallSave s; CallSendMail m] |})))).
Proof. exact (submit_cases env req w). Qed.

(** X2.  Every 400 answer is for a submission that is not valid and leaves
    the world as it was.  A submission that is not valid is answered 400
    with the world as it was, or, when a conversion throws, 500 with only
    the error logged.  When the date of birth, the email and the phone have
    a string form, the answer is 400 exactly when the submission is not
    valid. *)
Theorem bad_request_iff_invalid env req w :
  (forall r w', submit env req w = (Normal r, w') -> status r = 400%Z ->
                ~ valid env req /\ w' = w) /\
  (~ valid env req ->
   (exists reason, submit env req w = (Normal (bad_request reason), w)) \/
   (exists e, submit env req w = (Normal server_error, logged e w))) /\
  (readable (body req) ->
   (~ valid env req <->
    exists reason, submit env req w = (Normal (bad_request reason), w))).
Proof.
  split; [| split].
  - intros r w' H S.
    destruct (submit_cases env req w)
      as [[N [? E]]|[[N [? E]]|[_ (born & B & [(e & _ & E)|[(_ & e & _ & E)|
           [(_ & m & e & _ & _ & E)|(_ & m & _ & _ & E)]]])]]];
      rewrite E in H; inversion H; subst; try discriminate S.
    auto.
  - intro N.
    destruct (submit_cases env req w) as [[_ E]|[[_ E]|[V _]]]; auto.
    contradiction.
  - intros ((sd & D) & (se & E) & (sp & F)). split.
    + intro N.
      destruct (presence_rule_dec (body req)) as [P|P];
        [| eexists; now apply submit_missing].
      destruct (age_cases env req) as [[e B]|[U|R]].
      { apply new_Date_throws in B. congruence. }
      { eexists. now apply submit_underage. }
      destruct (email_cases (body req)) as [[e X]|[M|X]]; [congruence | |].
      { eexists. now apply submit_bad_email. }
      destruct (phone_cases (body req)) as [[e Y]|[M|Y]]; [congruence | |].
      { eexists. now apply submit_bad_phone. }
      exfalso. apply N. exact (conj P (conj R (conj X Y))).
    + intros [reason H] V.
      destruct (submit_valid_response w V) as [H'|H']; rewrite H in H';
        discriminate H'.
Qed.

(** X3.  The answer is 200 {message: "Submission successful"} exactly when
    the submission is valid, [save] succeeds, the mail can be built and
    [sendMail] succeeds, which is exactly when the mail went out. *)
Theorem success_iff env req w :
  (fst (submit env req w) = Normal success <->
   valid env req /\
   exists born m,
     birthDate env req = Normal born /\
     save_error env (newStudent born req) = None /\
     mailOptions env req = Normal m /\
     sendMail_error env m = None) /\
  (fst (submit env req w) = Normal success <->
   exists m, mailOptions env req = Normal m /\
             outbox (snd (submit env req w)) = outbox w ++ [m]).
Proof.
  destruct (submit_cases env req w)
    as [[N [? E]]|[[N [? E]]|[V (born & B & [(e & S & E)|[(S & e & M & E)|
         [(S & m & e & M & T & E)|(S & m & M & T & E)]]])]]];
    rewrite E; cbn [fst snd outbox logged]; split; split; intro H;
    try discriminate H; try reflexivity;
    try (exfalso; apply N; apply H);
    try (destruct H as (m' & _ & H); symmetry in H; now apply app_one_neq in H);
    try (destruct H as (_ & born' & m' & B' & S' & M' & T'); congruence).
  - split; [exact V|]. exists born, m. auto.
  - exists m. auto.
Qed.

(** X4.  The handler only appends: the documents stored and the mails sent
    before are kept in place, at most one document and one mail are added,
    and a mail is added only together with a document. *)
Theorem store_only_grows env req w :
  exists ds ms cs,
    db (snd (submit env req w)) = db w ++ ds /\
    outbox (snd (submit env req w)) = outbox w ++ ms /\
    calls (snd (submit env req w)) = calls w ++ cs /\
    (List.length ms <= List.length ds <= 1)%nat.
Proof.
  destruct (submit_cases env req w)
    as [[N [? E]]|[[N [e E]]|[V (born & B & [(e & S & E)|[(S & e & M & E)|
         [(S & m & e & M & T & E)|(S & m & M & T & E)]]])]]];
    rewrite E; cbn [snd db outbox calls logged].
  - exists [], [], []. rewrite !app_nil_r. simpl. repeat split; lia.
  - exists [], [], [CallConsoleError e].
    rewrite !app_nil_r. simpl. repeat split; lia.
  - exists [], [], [CallSave (newStudent born req); CallConsoleError e].
    rewrite !app_nil_r. simpl. repeat split; lia.
  - exists [newStudent born req], [],
      [CallSave (newStudent born req); CallConsoleError e].
    rewrite !app_nil_r. simpl. repeat split; lia.
  - exists [newStudent born req], [],
      [CallSave (newStudent born req); CallSendMail m; CallConsoleError e].
    rewrite !app_nil_r. simpl. repeat split; lia.
  - exists [newStudent born req], [m],
      [CallSave (newStudent born req); CallSendMail m].
    simpl. repeat split; lia.
Qed.

(** X5.  Nothing is deduplicated: a valid submission sent twice is stored
    twice if the store accepts it, whatever became of the mail; so a retry
    after a failed notification leaves two documents. *)
Theorem no_deduplication env1 env2 req w born1 born2 :
  valid env1 req -> valid env2 req ->
  birthDate env1 req = Normal born1 ->
  birthDate env2 req = Normal born2 ->
  save_error env1 (newStudent born1 req) = None ->
  save_error env2 (newStudent born2 req) = None ->
  db (snd (submit env2 req (snd (submit env1 req w)))) =
  db w ++ [newStudent born1 req; newStudent born2 req].
Proof.
  intros V1 V2 B1 B2 S1 S2.
  rewrite (submit_stores _ V2 B2 S2), (submit_stores _ V1 B1 S1).
  now rewrite <- app_assoc.
Qed.

Lemma no_deduplication_witness :
  List.length
    (db (snd (submit Example.env (Example.request Example.submission)
           (snd (submit Example.env_mail_down
                   (Example.request Example.submission) Example.world))))) = 2%nat.
Proof.
  assert (V1 : valid Example.env_mail_down (Example.request Example.submission))
    by rule_holds.
  assert (V2 : valid Example.env (Example.request Example.submission))
    by rule_holds.
  rewrite (@no_deduplication Example.env_mail_down Example.env
             (Example.request Example.submission) Example.world
             (Some 946684800000%Z) (Some 946684800000%Z)
             V1 V2 eq_refl eq_refl eq_refl eq_refl).
  reflexivity.
Defined.

(** X7.  A valid submission with an image, stored and notified without error:
    the answer is 200, the document's photo is the path of the stored file,
    the mail attaches that path and its text ends with "Photo: Attached". *)
Theorem image_upload_success env i f w born m :
  upload i = Some f ->
  image_type (mimetype f) ->
  let req := {| body := fields i; file := Some f |} in
  let s := newStudent born req in
  valid env req ->
  birthDate env req = Normal born ->
  save_error env s = None ->
  mailOptions env req = Normal m ->
  sendMail_error env m = None ->
  post_submit env i w =
  (Responded success,
   {| db := db w ++ [s]; outbox := outbox w ++ [m];
      calls := calls w ++ [CallSave s; CallSendMail m] |}) /\
  photo s = Some (path f) /\
  attachments m = [path f] /\
  exists before,
    text m = before ++ nl ++ lit "        Photo: Attached" ++ nl ++ lit "      ".
Proof.
  intros U Him req s V B S M T. split; [| split; [| split]].
  - unfold post_submit, upload_single. rewrite U, (@fileFilter_image f Him).
    fold req. now rewrite (submit_succeeds w V B S M T).
  - reflexivity.
  - unfold mailOptions in M. destruct (mail_text req); [| discriminate M].
    cbn in M. injection M as <-. reflexivity.
  - unfold mailOptions, mail_text in M. cbn [file req body] in M.
    destruct (ToString (field (fields i) "fullName")) as [s1|]; [|discriminate M].
    destruct (ToString (field (fields i) "dob")) as [s2|]; [|discriminate M].
    destruct (ToString (field (fields i) "gender")) as [s3|]; [|discriminate M].
    destruct (ToString (field (fields i) "email")) as [s4|]; [|discriminate M].
    destruct (ToString (field (fields i) "phone")) as [s5|]; [|discriminate M].
    destruct (ToString (field (fields i) "address")) as [s6|]; [|discriminate M].
    destruct (ToString (or_else (field (fields i) "previousSchool")
                          (Str (lit "N/A")))) as [s7|]; [|discriminate M].
    destruct (ToString (field (fields i) "result")) as [s8|]; [|discriminate M].
    destruct (ToString (field (fields i) "classApplying")) as [s9|];
      [|discriminate M].
    cbn in M. injection M as <-. cbn [text].
    exists
      (nl ++ lit "        New submission:" ++
       nl ++ lit "        Full Name: " ++ s1 ++
       nl ++ lit "        DOB: " ++ s2 ++
       nl ++ lit "        Gender: " ++ s3 ++
       nl ++ lit "        Email: " ++ s4 ++
       nl ++ lit "        Phone: " ++ s5 ++
       nl ++ lit "        Address: " ++ s6 ++
       nl ++ lit "        Previous School: " ++ s7 ++
       nl ++ lit "        Result: " ++ s8 ++
       nl ++ lit "        Class Applying: " ++ s9).
    repeat rewrite <- app_assoc. reflexivity.
Qed.

Lemma image_upload_success_witness :
  exists m,
  post_submit Example.env Gallery.with_photo Example.world =
  (Responded success,
   {| db := [newStudent (Some 946684800000%Z)
               {| body := Example.submission; file := Some Gallery.photo_file |}];
      outbox := [m];
      calls := [CallSave (newStudent (Some 946684800000%Z)
               {| body := Example.submission; file := Some Gallery.photo_file |});
                CallSendMail m]
   |}).
Proof.
  assert (I : image_type (mimetype Gallery.photo_file))
    by (exists (lit "png"); reflexivity).
  assert (V : valid Example.env
                {| body := fields Gallery.with_photo;
                   file := Some Gallery.photo_file |}) by rule_holds.
  destruct (mailOptions Example.env
              {| body := fields Gallery.with_photo;
                 file := Some Gallery.photo_file |}) as [m|e] eqn:M;
    [| discriminate M].
  exists m.
  exact (proj1 (@image_upload_success Example.env Gallery.with_photo
                  Gallery.photo_file Example.world (Some 946684800000%Z) m
                  eq_refl I V eq_refl eq_refl M eq_refl)).
Defined.

(** X8.  Validation reads [dob], [email], [phone] and [agreed], and of
    [fullName], [gender], [address], [result] and [classApplying] only
    whether they are empty; [previousSchool], the file and any other field
    do not matter.  Two requests alike in this respect are both valid or
    both not, and if not they get the same answer. *)
Theorem validation_frame env b b' f f' w :
  same_for_validation b b' ->
  (valid env {| body := b; file := f |} <->
   valid env {| body := b'; file := f' |}) /\
  (~ valid env {| body := b; file := f |} ->
   submit env {| body := b; file := f |} w =
   submit env {| body := b'; file := f' |} w).
Proof.
  intro A. pose proof (same_for_validation_sym A) as A'.
  split; [split; [apply (@valid_agree env b b' f f' A)
                 | apply (@valid_agree env b' b f' f A')]|].
  now apply submit_invalid_agree.
Qed.

Lemma validation_frame_witness :
  valid Example.env
    {| body := Example.with_field "fullName" (Str (lit " "))
                 (Example.with_field "previousSchool" (Str (lit "Hill High"))
                    Example.submission);
       file := Some Gallery.photo_file |}.
Proof.
  assert (V : valid Example.env (Example.request Example.submission))
    by rule_holds.
  refine (proj1 (proj1 (@validation_frame Example.env Example.submission
            (Example.with_field "fullName" (Str (lit " "))
               (Example.with_field "previousSchool" (Str (lit "Hill High"))
                  Example.submission))
            None (Some Gallery.photo_file) Example.world _)) V).
  split; intros name H; simpl in H;
    repeat (destruct H as [<-|H]; [reflexivity|]); destruct H.
Defined.

(** X9.  With a date of birth that parses, the age rule is passed exactly
    when at least 568036800000 ms (6574.5 days) lie between it and now. *)
Theorem age_threshold env req born :
  birthDate env req = Normal (Some born) ->
  (age_rule env req <-> (568036800000 <= Date_now env - born)%Z).
Proof.
  intro B. unfold age_rule, age. rewrite B. cbn [bindC]. unfold age_at.
  cbn [date_sub]. split.
  - intros (a & [= <-] & L).
    change (num_lt (num_div (Some (Date_now env - born)%Z) ms_per_year) 18%Q
            = false) in L.
    rewrite under_18_ms in L. now apply Z.ltb_ge.
  - intro H. eexists. split; [reflexivity|]. rewrite under_18_ms.
    now apply Z.ltb_ge.
Qed.

Lemma age_threshold_witness :
  age_rule Example.env (Example.request Example.submission).
Proof.
  apply (proj2 (@age_threshold Example.env (Example.request Example.submission)
                  946684800000%Z eq_refl)).
  vm_compute. discriminate.
Defined.

(** X10.  The email pattern is not anchored: a text that passes still passes
    with anything put before or after it. *)
Theorem email_test_unanchored s before after :
  test email_re s = true ->
  test email_re (before ++ s ++ after) = true.
Proof.
  rewrite !test_email_re. intros (pre & u & v & w & post & -> & H).
  exists (before ++ pre), u, v, w, (post ++ after). split; [| exact H].
  repeat rewrite <- app_assoc. reflexivity.
Qed.

Lemma email_test_unanchored_witness :
  test email_re (lit "write to a@b.com please") = true.
Proof.
  apply (@email_test_unanchored (lit "a@b.com") (lit "write to ") (lit " please")).
  vm_compute. reflexivity.
Defined.

(** X11.  A text without whitespace passes the email pattern exactly when it
    splits as u@v.w with u, v and w not empty (more '@' and '.' may occur
    inside them). *)
Theorem email_test_without_whitespace s :
  Forall (fun ch => is_space ch = false) s ->
  (test email_re s = true <->
   exists u v w,
     s = u ++ [chr "@"] ++ v ++ [chr "."] ++ w /\
     u <> [] /\ v <> [] /\ w <> []).
Proof.
  intro F. rewrite test_email_re. split.
  - intros (pre & u & v & w & post & -> & [Nu _] & [Nv _] & [Nw _]).
    exists (pre ++ u), v, (w ++ post). repeat split.
    + repeat rewrite <- app_assoc. reflexivity.
    + intro E. apply app_eq_nil in E as [_ E]. contradiction.
    + exact Nv.
    + intro E. apply app_eq_nil in E as [E _]. contradiction.
  - intros (u & v & w & -> & Nu & Nv & Nw).
    exists [], u, v, w, []. rewrite app_nil_r.
    apply Forall_app in F as [Fu F]. apply Forall_app in F as [_ F].
    apply Forall_app in F as [Fv F]. apply Forall_app in F as [_ Fw].
    repeat split; auto.
Qed.

Lemma email_test_without_whitespace_witness :
  test email_re (lit "a@b@c.d.e") = true.
Proof.
  apply (proj2 (@email_test_without_whitespace (lit "a@b@c.d.e")
                  ltac:(repeat constructor))).
  exists (lit "a"), (lit "b@c"), (lit "d.e"). repeat split; discriminate.
Defined.

(** X12.  A text that passes the phone pattern has 12 characters, all digits
    or '-', and the pattern is anchored at both ends: nothing can be put
    before or after it, not even a line break. *)
Theorem phone_test_exact s :
  test phone_re s = true ->
  List.length s = 12%nat /\
  Forall (fun ch => is_digit ch = true \/ ch = chr "-") s /\
  forall before after,
    test phone_re (before ++ s ++ after) = true -> before = [] /\ after = [].
Proof.
  assert (Len : forall t, phone_pattern t -> List.length t = 12%nat).
  { intros t (a & b & c & -> & [La _] & [Lb _] & [Lc _]).
    rewrite !length_app. cbn [List.length]. lia. }
  rewrite test_phone_re. intro P. split; [now apply Len|]. split.
  - destruct P as (a & b & c & -> & [_ Fa] & [_ Fb] & [_ Fc]).
    assert (D : forall l, Forall (fun ch => (48 <= ch <= 57)%N) l ->
                Forall (fun ch => is_digit ch = true \/ ch = chr "-") l).
    { intros l Fl. eapply Forall_impl; [| exact Fl]. intros ch Hc. left.
      unfold is_digit. apply andb_true_iff. destruct Hc.
      split; apply N.leb_le; assumption. }
    repeat (apply Forall_app; split); auto; constructor; auto.
  - intros before after T. apply test_phone_re in T.
    apply Len in T. apply Len in P. rewrite !length_app in T.
    split; apply length_zero_iff_nil; lia.
Qed.

Lemma phone_test_exact_witness :
  List.length (lit "123-456-7890") = 12%nat /\
  test phone_re (lit "123-456-7890" ++ [10%N]) <> true.
Proof.
  destruct (@phone_test_exact (lit "123-456-7890") eq_refl) as (L & _ & X).
  split; [exact L|]. intro T.
  destruct (X [] [10%N] T) as [_ E]. discriminate E.
Defined.

(** X13.  Two stored files get the same name exactly when they were stored
    in the same millisecond under the same extension: the original name and
    the content play no part, and different milliseconds never collide. *)
Theorem filename_collision now1 now2 ext1 ext2 :
  clock_reading now1 -> clock_reading now2 ->
  extension ext1 -> extension ext2 ->
  (filename now1 ext1 = filename now2 ext2 <-> now1 = now2 /\ ext1 = ext2).
Proof.
  intros _ _ X1 X2. unfold filename. split.
  - intro H. apply numeral_split in H; auto using decimal_chars.
    destruct H as [H ->]. split; [now apply decimal_inj | reflexivity].
  - now intros [-> ->].
Qed.

Lemma filename_collision_witness :
  filename 1793577600000 (lit ".png") <> filename 1793577600001 (lit ".png").
Proof.
  intro H.
  assert (C1 : clock_reading 1793577600000) by (unfold clock_reading; simpl; lia).
  assert (C2 : clock_reading 1793577600001) by (unfold clock_reading; simpl; lia).
  apply (proj1 (@filename_collision 1793577600000 1793577600001
                  (lit ".png") (lit ".png") C1 C2
                  (or_intror (ex_intro _ (lit "png") eq_refl))
                  (or_intror (ex_intro _ (lit "png") eq_refl)))) in H.
  destruct H as [H _]. discriminate H.
Defined.

(** X14.  The handler always answers, with status 200, 400 or 500: its
    [try]/[catch] lets no error escape. *)
Theorem handler_always_answers env req w :
  exists r w',
    submit env req w = (Normal r, w') /\
    (status r = 200%Z \/ status r = 400%Z \/ status r = 500%Z).
Proof.
  destruct (submit_cases env req w)
    as [[N [? E]]|[[N [? E]]|[V (born & B & [(e & S & E)|[(S & e & M & E)|
         [(S & m & e & M & T & E)|(S & m & M & T & E)]]])]]];
    rewrite E; do 2 eexists; (split; [reflexivity|]); simpl; auto.
Qed.
